(** * Adaptive polygon simplification and GeoJSON export

    A shallow embedding of [CODE_GENERIQUE_GEOJSON.py] (and of its commented
    twin [CODE_GENERIQUE_GEOJSON_SUPERSET.py], which has the same code) and
    the properties of its three functions:

    - [total_coords_count]: the number of coordinates of a polygon;
    - [adaptive_polygon_simplify]: the search for a tolerance that brings a
      polygon under 780 coordinates;
    - [geojson_to_excel_with_exploded_multipolygons]: the pipeline that reads
      a GeoJSON file, explodes the multi-polygons, simplifies every polygon
      and writes an Excel table and a GeoJSON collection.

    Modelling choices.
    - Python [int] is [Z]. Python [float] is modelled by the exact rationals
      [Q]: rounding, overflow and underflow of binary64 are not represented.
      The statements about the sign and the size of the tolerance are
      therefore made where binary64 agrees: for a [target_points] of at most
      781 the tolerance never shrinks, so it cannot underflow to [0.0], and a
      bound on [max_iterations] keeps it from overflowing.
    - The two exports are modelled as writes that succeed; the statements
      about what a run leaves are made for a run that succeeds or for an
      exception raised before the exports.
    - Exceptions are explicit: a computation returns an [outcome].
    - The loop of the search is a [Fixpoint] on a fuel, started with
      [max_iterations] units, and is shown never to run out of it.
    - shapely ([simplify], [shape], [mapping]), [json.dumps] are collaborators
      of the program: they are variables of the sections below.
    - Python dictionaries are [gmap string _]; the file system is a
      [gmap string file]. *)

From Stdlib Require Import ZArith QArith Qround Qabs String Ascii DecimalString Lia.
From stdpp Require Import gmap strings list relations.

#[local] Set Warnings "-register-all,-notation-for-abbreviation".
#[local] Open Scope Z_scope.

(** ** Exceptions and outcomes *)

Inductive exn :=
  | ZeroDivisionError
  | ValueError (msg : string)
  | KeyError (key : string)
  | AttributeError
  | TypeError
  | FileNotFoundError
  | JSONDecodeError
  | ShapeError.

(** [OutOfFuel] is an artefact of the model (a loop was given too little
    fuel); the functions of the program never produce it, see
    [search_loop_fuel] and [adaptive_polygon_simplify_total]. *)
Inductive outcome (A : Type) :=
  | Ok (a : A)
  | Raise (e : exn)
  | OutOfFuel.

Arguments Ok {A} a.
Arguments Raise {A} e.
Arguments OutOfFuel {A}.

#[global] Instance outcome_ret : MRet outcome := λ A a, Ok a.

#[global] Instance outcome_bind : MBind outcome := λ A B k m,
  match m with
  | Ok a => k a
  | Raise e => Raise e
  | OutOfFuel => OutOfFuel
  end.

(** ** Geometries (shapely) *)

Definition coord : Type := Q * Q.
Definition ring : Type := list coord.

Record polygon := mkPolygon {
  exterior : ring;
  interiors : list ring
}.

Inductive geometry :=
  | Polygon (p : polygon)
  | MultiPolygon (geoms : list polygon)
  | Point (c : coord)
  | LineString (coords : list coord)
  | LinearRing (coords : ring)
  | MultiPoint (points : list coord)
  | MultiLineString (lines : list (list coord))
  | GeometryCollection (members : list geometry).

(** [isinstance(geom, Polygon)] and [isinstance(geom, MultiPolygon)]. *)
Definition isinstance_Polygon (geom : geometry) : bool :=
  match geom with Polygon _ => true | _ => false end.

Definition isinstance_MultiPolygon (geom : geometry) : bool :=
  match geom with MultiPolygon _ => true | _ => false end.

(** ** Python arithmetic *)

(** The builtin [sum] of a sequence of integers: starts from 0 and adds
    from the left. *)
Definition sum (l : list Z) : Z := fold_left Z.add l 0.

(** [len]. *)
Definition len {A} (l : list A) : Z := Z.of_nat (length l).

(** [a / b] on integers: true division, which raises on a zero divisor. *)
Definition truediv (a b : Z) : outcome Q :=
  if b =? 0 then Raise ZeroDivisionError else Ok (inject_Z a / inject_Z b)%Q.

Definition Qltb (x y : Q) : bool := negb (Qle_bool y x).

(** The builtin [min(a, b)]: [b] when [b < a], else [a]. *)
Definition min (a b : Q) : Q := if Qltb b a then b else a.

(** The literal [1e-10]. *)
Definition tol0 : Q := 1 # 10000000000.

(** ** [total_coords_count] *)

Definition total_coords_count (geom : geometry) : Z :=
  match geom with
  | Polygon p =>
      let rings := exterior p :: interiors p in
      sum (map (λ ring : ring, len ring) rings)
  | _ => 0
  end.

(** ** [adaptive_polygon_simplify] *)

(** The variables of the loop. *)
Record search_state := mkState {
  simplified : geometry;
  tolerance : Q;
  iteration : Z
}.

Section Simplifier.

(** [geom.simplify(tolerance, preserve_topology=...)] of shapely. *)
Variable simplify : geometry → Q → bool → geometry.

Section Search.

Variables (geom : geometry) (target_points max_iterations : Z).

(** Lines 23-25: the first pass, before the loop. *)
Definition search_init : search_state :=
  let tolerance := tol0 in
  let simplified := simplify geom tolerance true in
  mkState simplified tolerance 0.

(** Line 27: the condition of the [while]. *)
Definition loop_cond (st : search_state) : bool :=
  (780 <? total_coords_count (simplified st)) && (iteration st <? max_iterations).

(** Lines 28-32: the body of the [while]. *)
Definition loop_body (st : search_state) : outcome search_state :=
  error_ratio ← truediv (total_coords_count (simplified st)) target_points;
  let tolerance := (tolerance st * min error_ratio 2)%Q in
  let simplified := simplify geom tolerance true in
  Ok (mkState simplified tolerance (iteration st + 1)).

(** Lines 27-32: the [while] loop. *)
Fixpoint search_loop (fuel : nat) (st : search_state) : outcome search_state :=
  if loop_cond st then
    match fuel with
    | O => OutOfFuel
    | S fuel' => st' ← loop_body st; search_loop fuel' st'
    end
  else Ok st.

(** One iteration of the loop, as a relation between the states at two
    successive evaluations of the condition. *)
Definition search_step (st st' : search_state) : Prop :=
  loop_cond st = true ∧ loop_body st = Ok st'.

(** Lines 15-35. The result is
    [(simplified, tolerance, original, simplified_n)]. *)
Definition adaptive_polygon_simplify : outcome (geometry * Q * Z * Z) :=
  let original := total_coords_count geom in
  if original <=? target_points then Ok (geom, 0%Q, original, original)
  else
    st ← search_loop (Z.to_nat max_iterations) search_init;
    let simplified_n := total_coords_count (simplified st) in
    Ok (simplified st, tolerance st, original, simplified_n).

End Search.

End Simplifier.

(** ** JSON values, files *)

(** What [json.load] returns: [None], [bool], [int], [float], [str], [list]
    and [dict] with string keys. *)
Inductive json :=
  | JNull
  | JBool (b : bool)
  | JInt (z : Z)
  | JFloat (q : Q)
  | JString (s : string)
  | JList (items : list json)
  | JDict (d : gmap string json).

(** The content of a file: a JSON document, the rows of an Excel sheet
    (each a dictionary from column names to cells), or anything else. *)
Inductive file :=
  | JsonFile (doc : json)
  | ExcelFile (rows : list (gmap string json))
  | OtherFile.

(** [open(path, "r")] followed by [json.load]. *)
Definition json_load (fs : gmap string file) (path : string) : outcome json :=
  match fs !! path with
  | None => Raise FileNotFoundError
  | Some (JsonFile doc) => Ok doc
  | Some _ => Raise JSONDecodeError
  end.

(** [o.get(key, value)]: only a [dict] has the method. *)
Definition get (o : json) (key : string) (value : json) : outcome json :=
  match o with
  | JDict d => Ok (default value (d !! key))
  | _ => Raise AttributeError
  end.

(** [o[key]] for a string key. *)
Definition getitem (o : json) (key : string) : outcome json :=
  match o with
  | JDict d =>
      match d !! key with
      | Some v => Ok v
      | None => Raise (KeyError key)
      end
  | _ => Raise TypeError
  end.

(** [o == s] for a string literal [s]. *)
Definition eq_str (o : json) (s : string) : bool :=
  match o with
  | JString s' => String.eqb s' s
  | _ => false
  end.

(** The elements a [for] loop goes through: the items of a list, the keys
    of a dictionary, the characters of a string; the other values are not
    iterable. *)
Definition iter (o : json) : outcome (list json) :=
  match o with
  | JList items => Ok items
  | JDict d => Ok (JString <$> (map_to_list d).*1)
  | JString s => Ok ((λ c, JString (String c EmptyString)) <$> list_ascii_of_string s)
  | _ => Raise TypeError
  end.

(** [props.copy()]: dictionaries and lists have the method; the copy of a
    list then fails at [record["geometry"] = ...]. *)
Definition copy (props : json) : outcome (gmap string json) :=
  match props with
  | JDict d => Ok d
  | JList _ => Raise TypeError
  | _ => Raise AttributeError
  end.

(** ** Formatting *)

(** [str] of an integer, as in [f"{orig_pts}"]. *)
Definition str (z : Z) : string := NilZero.string_of_int (Z.to_int z).

(** Scales a positive [x] into the interval from 1 to 10 (excluded) and
    counts the powers of ten. *)
Fixpoint scale10 (fuel : nat) (x : Q) (e : Z) : Q * Z :=
  match fuel with
  | O => (x, e)
  | S fuel' =>
      if Qle_bool 10 x then scale10 fuel' (Qred (x / 10)) (e + 1)
      else if Qltb x 1 then scale10 fuel' (Qred (x * 10)) (e - 1)
      else (x, e)
  end.

(** Rounding to the nearest integer, ties to the even one. *)
Definition round_half_even (x : Q) : Z :=
  let f := Qfloor x in
  match (x - inject_Z f ?= 1 # 2)%Q with
  | Lt => f
  | Gt => f + 1
  | Eq => if Z.even f then f else f + 1
  end.

(** The exponent of the scientific notation: a sign and two digits at
    least. *)
Definition exponent (e : Z) : string :=
  ((if (e <? 0)%Z then "-" else "+") ++
   (if (Z.abs e <? 10)%Z then "0" else "") ++ str (Z.abs e))%string.

(** [f"{x:.0e}"]: scientific notation with no digit after the point. *)
Definition format_0e (x : Q) : string :=
  let sign := if Qltb x 0 then "-"%string else ""%string in
  let a := Qabs x in
  if Qeq_bool a 0 then (sign ++ "0e+00")%string
  else
    let fuel := (Pos.size_nat (Z.to_pos (Qnum a)) + Pos.size_nat (Qden a))%nat in
    let '(m, e) := scale10 fuel (Qred a) 0 in
    let d := round_half_even m in
    let '(d, e) := if d =? 10 then (1, e + 1) else (d, e) in
    (sign ++ str d ++ "e" ++ exponent e)%string.

(** Lines 85-88: the cell [simplification_info]. *)
Definition simplification_info (tol : Q) (orig_pts simp_pts : Z) : string :=
  if Qltb 0 tol then
    (str orig_pts ++ "→" ++ str simp_pts ++ " points (tolérance=" ++ format_0e tol ++ ")")%string
  else "Aucune simplification"%string.

(** ** [geojson_to_excel_with_exploded_multipolygons] *)

(** The default values of [target_points] and [max_iterations]. *)
Definition default_target_points : Z := 780.
Definition default_max_iterations : Z := 400.

Definition invalid_input : exn :=
  ValueError "Le fichier GeoJSON ne contient pas une Feature ou FeatureCollection valide.".

(** The two lists the pipeline fills. *)
Record outputs := mkOutputs {
  all_records : list (gmap string json);
  simplified_features : list json
}.

(** Lines 58-63: the polygons of a geometry, [None] for [continue]. *)
Definition explode (geom : geometry) : option (list geometry) :=
  if isinstance_MultiPolygon geom then
    match geom with
    | MultiPolygon geoms => Some (Polygon <$> geoms)
    | _ => None
    end
  else if isinstance_Polygon geom then Some [geom]
  else None.

Section Pipeline.

Variable simplify : geometry → Q → bool → geometry.

(** [shapely.geometry.shape]: [None] when it raises. *)
Variable shape : json → option geometry.

(** [shapely.geometry.mapping]. *)
Variable mapping : geometry → json.

(** [json.dumps(_, ensure_ascii=False, separators=(',', ':'))]. *)
Variable dumps : json → string.

(** Lines 66-90: the body of [for poly in polys]. *)
Definition poly_body (props : json) (poly : geometry) (out : outputs) : outcome outputs :=
  '(simplified_geom, tol, orig_pts, simp_pts) ←
    adaptive_polygon_simplify simplify poly default_target_points default_max_iterations;
  let geom_json := mapping simplified_geom in
  let feature_geojson :=
    JDict {[ "type" := JString "Feature"; "geometry" := geom_json; "properties" := props ]} in
  let simplified_features := simplified_features out ++ [feature_geojson] in
  record ← copy props;
  let record_geojson :=
    JDict {[ "type" := JString "Feature"; "geometry" := geom_json ]} in
  let record := <["geometry" := JString (dumps record_geojson)]> record in
  let record :=
    <["simplification_info" := JString (simplification_info tol orig_pts simp_pts)]> record in
  let all_records := all_records out ++ [record] in
  Ok (mkOutputs all_records simplified_features).

(** Line 65: [for poly in polys]. *)
Fixpoint for_polys (props : json) (polys : list geometry) (out : outputs) : outcome outputs :=
  match polys with
  | [] => Ok out
  | poly :: polys' => out' ← poly_body props poly out; for_polys props polys' out'
  end.

(** Lines 54-90: the body of [for feature in features]. *)
Definition feature_body (feature : json) (out : outputs) : outcome outputs :=
  props ← get feature "properties" (JDict ∅);
  geometry ← getitem feature "geometry";
  match shape geometry with
  | None => Raise ShapeError
  | Some geom =>
      match explode geom with
      | None => Ok out
      | Some polys => for_polys props polys out
      end
  end.

(** Line 53: [for feature in features]. *)
Fixpoint for_features (features : list json) (out : outputs) : outcome outputs :=
  match features with
  | [] => Ok out
  | feature :: features' => out' ← feature_body feature out; for_features features' out'
  end.

(** Lines 43-48: a single feature or a collection. *)
Definition features_of (data : json) : outcome (list json) :=
  type ← get data "type" JNull;
  if eq_str type "FeatureCollection" then
    features ← getitem data "features"; iter features
  else if eq_str type "Feature" then Ok [data]
  else Raise invalid_input.

(** Lines 39-90: everything before the two exports. *)
Definition collect (fs : gmap string file) (input_geojson_path : string) : outcome outputs :=
  data ← json_load fs input_geojson_path;
  features ← features_of data;
  for_features features (mkOutputs [] []).

(** Lines 38-102. The result is the outcome and the file system the run
    leaves. *)
Definition geojson_to_excel_with_exploded_multipolygons
    (fs : gmap string file) (input_geojson_path output_excel_path output_geojson_path : string)
    : outcome () * gmap string file :=
  match collect fs input_geojson_path with
  | Ok out =>
      let fs := <[output_excel_path := ExcelFile (all_records out)]> fs in
      let final_geojson :=
        JDict {[ "type" := JString "FeatureCollection";
                 "features" := JList (simplified_features out) ]} in
      let fs := <[output_geojson_path := JsonFile final_geojson]> fs in
      (Ok (), fs)
  | Raise e => (Raise e, fs)
  | OutOfFuel => (OutOfFuel, fs)
  end.

(** Lines 105-110: the call at the end of the module, which runs when the
    file is executed or imported. *)
Definition main (fs : gmap string file) : outcome () * gmap string file :=
  geojson_to_excel_with_exploded_multipolygons fs
    "C:/Users/lgrillon/Downloads/SER__test.geojson"
    "C:/Users/lgrillon/Downloads/SER__test3.xlsx"
    "C:/Users/lgrillon/Downloads/SER__test3.geojson".

End Pipeline.

(** ** Outputs put end to end

    Used to say how the outputs of two runs combine. *)

#[global] Instance outcome_fmap : FMap outcome := λ A B f m,
  match m with
  | Ok a => Ok (f a)
  | Raise e => Raise e
  | OutOfFuel => OutOfFuel
  end.

(** The rows and the features of [out], followed by those of [more]. *)
Definition append_outputs (out more : outputs) : outputs :=
  mkOutputs (all_records out ++ all_records more)
            (simplified_features out ++ simplified_features more).

(** ** Sample collaborators and inputs

    Simple stand-ins for the collaborators, on which the program is run on
    concrete inputs below. *)

Module Sample.

(** Twice the signed area of the triangle [a b c]: zero when the three
    points are on one line. *)
Definition cross (a b c : coord) : Q :=
  ((b.1 - a.1) * (c.2 - a.2) - (b.2 - a.2) * (c.1 - a.1))%Q.

Fixpoint drop_collinear_from (prev : coord) (r : ring) : ring :=
  match r with
  | b :: r' =>
      match r' with
      | c :: _ =>
          if Qeq_bool (cross prev b c) 0 then drop_collinear_from prev r'
          else b :: drop_collinear_from b r'
      | [] => r
      end
  | [] => r
  end.

(** Removes from a ring the vertices that are on the line through the
    vertex kept before them and the vertex after them. The two ends stay. *)
Definition drop_collinear (r : ring) : ring :=
  match r with
  | a :: r' => a :: drop_collinear_from a r'
  | [] => []
  end.

(** A simplification that removes the vertices at distance zero from the
    line of their neighbours, whatever the tolerance, and nothing else:
    what a Douglas-Peucker simplification does as long as the tolerance is
    under the distance of every other vertex. *)
Definition simplify (geom : geometry) (tolerance : Q) (preserve_topology : bool) : geometry :=
  match geom with
  | Polygon p => Polygon (mkPolygon (drop_collinear (exterior p)) (drop_collinear <$> interiors p))
  | _ => geom
  end.

Definition as_number (j : json) : option Q :=
  match j with
  | JInt z => Some (inject_Z z)
  | JFloat q => Some q
  | _ => None
  end.

Definition as_coord (j : json) : option coord :=
  match j with
  | JList (x :: y :: _) => x' ← as_number x; y' ← as_number y; Some (x', y')
  | _ => None
  end.

Definition as_list {A} (f : json → option A) (j : json) : option (list A) :=
  match j with
  | JList items => mapM f items
  | _ => None
  end.

Definition as_polygon (j : json) : option polygon :=
  rings ← as_list (as_list as_coord) j;
  match rings with
  | shell :: holes => Some (mkPolygon shell holes)
  | [] => Some (mkPolygon [] [])
  end.

(** The geometry of a GeoJSON geometry object, for the kinds below. *)
Definition shape (j : json) : option geometry :=
  match j with
  | JDict d =>
      match d !! "type", d !! "coordinates" with
      | Some (JString kind), Some c =>
          if String.eqb kind "Polygon" then Polygon <$> as_polygon c
          else if String.eqb kind "MultiPolygon" then MultiPolygon <$> as_list as_polygon c
          else if String.eqb kind "LineString" then LineString <$> as_list as_coord c
          else if String.eqb kind "Point" then Point <$> as_coord c
          else None
      | _, _ => None
      end
  | _ => None
  end.

Definition of_coord (c : coord) : json := JList [JFloat c.1; JFloat c.2].
Definition of_ring (r : ring) : json := JList (of_coord <$> r).
Definition of_polygon (p : polygon) : json := JList (of_ring <$> exterior p :: interiors p).

Definition geometry_object (kind : string) (coordinates : json) : json :=
  JDict {[ "type" := JString kind; "coordinates" := coordinates ]}.

(** The GeoJSON geometry object of a geometry. *)
Definition mapping (geom : geometry) : json :=
  match geom with
  | Polygon p => geometry_object "Polygon" (of_polygon p)
  | MultiPolygon geoms => geometry_object "MultiPolygon" (JList (of_polygon <$> geoms))
  | Point c => geometry_object "Point" (of_coord c)
  | LineString cs => geometry_object "LineString" (of_ring cs)
  | LinearRing cs => geometry_object "LineString" (of_ring cs)
  | MultiPoint cs => geometry_object "MultiPoint" (of_ring cs)
  | MultiLineString ls => geometry_object "MultiLineString" (JList (of_ring <$> ls))
  | GeometryCollection _ => JDict {[ "type" := JString "GeometryCollection" ]}
  end.

(** The text of the cell [geometry] plays no part in what follows: the
    stand-in keeps the top-level keys only. *)
Definition dumps (j : json) : string :=
  match j with
  | JDict d => String.concat "," (map_to_list d).*1
  | _ => ""
  end.

Definition pt (x y : Z) : coord := (inject_Z x, inject_Z y).

(** A ring of 1200 coordinates: the 899 points [(i, i²)], [i] from 0 to
    898, of a parabola; then 300 points of the chord from [(898, 898²)]
    back to the origin, [(j, 898 j)] for [j] from 897 down to 598; then
    the origin again. No three points of the parabola are on a line; the
    300 points of the chord are on the line of their neighbours. *)
Definition parabola_ring : ring :=
  ((λ i, pt i (i * i)) <$> seqZ 0 899) ++
  ((λ k, pt (897 - k) (898 * (897 - k))) <$> seqZ 0 300) ++
  [pt 0 0].

Definition parabola : geometry := Polygon (mkPolygon parabola_ring []).

(** A square with a square hole: 5 + 5 coordinates. *)
Definition square (x y side : Z) : ring :=
  [pt x y; pt (x + side) y; pt (x + side) (y + side); pt x (y + side); pt x y].

Definition holed_square : polygon := mkPolygon (square 0 0 10) [square 2 2 3].

(** A square of side 200 with a vertex at every unit of its boundary: 801
    coordinates, of which the four corners and the closing point are not
    on the line of their neighbours. *)
Definition dotted_ring : ring :=
  ((λ i, pt i 0) <$> seqZ 0 200) ++
  ((λ i, pt 200 i) <$> seqZ 0 200) ++
  ((λ i, pt (200 - i) 200) <$> seqZ 0 200) ++
  ((λ i, pt 0 (200 - i)) <$> seqZ 0 200) ++
  [pt 0 0].

Definition dotted_square : geometry := Polygon (mkPolygon dotted_ring []).

Definition properties : json :=
  JDict {[ "name" := JString "parcelle"; "code" := JInt 95 ]}.

Definition feature_fields (geometry : json) : gmap string json :=
  {[ "type" := JString "Feature"; "geometry" := geometry; "properties" := properties ]}.

Definition feature (geometry : json) : json := JDict (feature_fields geometry).

Definition polygon_feature : json := feature (mapping (Polygon holed_square)).

Definition three_squares : list polygon :=
  [holed_square; mkPolygon (square 20 0 4) []; mkPolygon (square 30 0 4) []].

Definition multipolygon_feature : json := feature (mapping (MultiPolygon three_squares)).

Definition linestring_feature : json :=
  JDict {[ "type" := JString "Feature";
           "geometry" := mapping (LineString [pt 0 0; pt 1 1; pt 2 0]);
           "properties" := JNull ]}.

Definition collection (features : list json) : json :=
  JDict {[ "type" := JString "FeatureCollection"; "features" := JList features ]}.

(** The pipeline with the stand-ins for its collaborators. *)
Definition run := geojson_to_excel_with_exploded_multipolygons simplify shape mapping dumps.

(** The cells [simplification_info] of the table a run writes. *)
Definition info_column (fs : gmap string file) (path : string) : list (option json) :=
  match fs !! path with
  | Some (ExcelFile rows) => (λ row : gmap string json, row !! "simplification_info") <$> rows
  | _ => []
  end.

End Sample.

(** * Properties *)

(** ** Arithmetic *)

Lemma Qltb_lt (x y : Q) : Qltb x y = true ↔ (x < y)%Q.
Proof.
  unfold Qltb. rewrite negb_true_iff. split.
  - intros Hb. apply Qnot_le_lt. intros Hle.
    apply Qle_bool_iff in Hle. congruence.
  - intros Hlt. destruct (Qle_bool y x) eqn:Hb; [|done].
    apply Qle_bool_iff in Hb. destruct (Qlt_not_le _ _ Hlt Hb).
Qed.

Lemma Qltb_ge (x y : Q) : Qltb x y = false ↔ (y <= x)%Q.
Proof.
  unfold Qltb. rewrite negb_false_iff. apply Qle_bool_iff.
Qed.

Lemma min_le_r (a b : Q) : (min a b <= b)%Q.
Proof.
  unfold min. destruct (Qltb b a) eqn:Hb.
  - apply Qle_refl.
  - apply Qltb_ge, Hb.
Qed.

Lemma min_case (a b : Q) (P : Q → Prop) : P a → P b → P (min a b).
Proof. unfold min. by destruct (Qltb b a). Qed.

Lemma ratio_pos (a b : Z) : 0 < a → 0 < b → (0 < inject_Z a / inject_Z b)%Q.
Proof.
  intros Ha Hb. apply Qlt_shift_div_l.
  - unfold Qlt. simpl. lia.
  - rewrite Qmult_0_l. unfold Qlt. simpl. lia.
Qed.

Lemma ratio_ge_1 (a b : Z) : 0 < b → b ≤ a → (1 <= inject_Z a / inject_Z b)%Q.
Proof.
  intros Hb Hab. apply Qle_shift_div_l.
  - unfold Qlt. simpl. lia.
  - rewrite Qmult_1_l. unfold Qle. simpl. lia.
Qed.

Lemma fold_left_add (l : list Z) (a : Z) : fold_left Z.add l a = a + sum l.
Proof.
  unfold sum. revert a. induction l as [|x l IH]; intros a; cbn [fold_left].
  - lia.
  - rewrite (IH (a + x)), (IH (0 + x)). lia.
Qed.

Lemma sum_cons (x : Z) (l : list Z) : sum (x :: l) = x + sum l.
Proof. unfold sum at 1. simpl. apply fold_left_add. Qed.

Lemma sum_len_nonneg {A} (l : list (list A)) : 0 ≤ sum (map (λ r, len r) l).
Proof.
  induction l as [|r l IH].
  - done.
  - rewrite map_cons, sum_cons. unfold len at 1. lia.
Qed.

Lemma total_coords_count_nonneg (geom : geometry) : 0 ≤ total_coords_count geom.
Proof.
  destruct geom as [p| | | | | | |]; cbn [total_coords_count]; try lia.
  rewrite map_cons, sum_cons. pose proof (sum_len_nonneg (interiors p)).
  unfold len at 1. unfold ring in *. lia.
Qed.

(** ** The search loop *)

Section SearchFacts.

Variable simplify : geometry → Q → bool → geometry.
Variables (geom : geometry) (target_points max_iterations : Z).

Notation cond := (loop_cond max_iterations).
Notation body := (loop_body simplify geom target_points).
Notation loop := (search_loop simplify geom target_points max_iterations).
Notation step := (search_step simplify geom target_points max_iterations).
Notation init := (search_init simplify geom).

Lemma loop_cond_true (st : search_state) :
  cond st = true ↔ 780 < total_coords_count (simplified st) ∧ iteration st < max_iterations.
Proof. unfold loop_cond. rewrite andb_true_iff, !Z.ltb_lt. done. Qed.

Lemma loop_cond_false (st : search_state) :
  cond st = false ↔ total_coords_count (simplified st) ≤ 780 ∨ max_iterations ≤ iteration st.
Proof. unfold loop_cond. rewrite andb_false_iff, !Z.ltb_ge. done. Qed.

(** What one run of the body computes. *)
Lemma loop_body_Ok (st st' : search_state) :
  body st = Ok st' ↔
  target_points ≠ 0 ∧
  st' = let tolerance :=
          (tolerance st *
           min (inject_Z (total_coords_count (simplified st)) / inject_Z target_points) 2)%Q in
        mkState (simplify geom tolerance true) tolerance (iteration st + 1).
Proof.
  unfold loop_body, truediv. destruct (Z.eqb_spec target_points 0) as [Hz|Hz]; simpl.
  - split; [done | by intros [? _]].
  - split; [intros [= <-]; done | intros [_ ->]; done].
Qed.

Lemma loop_body_raises (st : search_state) :
  body st = Raise ZeroDivisionError ↔ target_points = 0.
Proof.
  unfold loop_body, truediv. destruct (Z.eqb_spec target_points 0); simpl; split; done.
Qed.

Lemma loop_body_not_OutOfFuel (st : search_state) : body st ≠ OutOfFuel.
Proof. unfold loop_body, truediv. by destruct (target_points =? 0). Qed.

Lemma step_iteration (st st' : search_state) :
  step st st' → iteration st' = iteration st + 1 ∧ iteration st < max_iterations.
Proof.
  intros [Hc Hb]. apply loop_cond_true in Hc. apply loop_body_Ok in Hb as [_ ->].
  simpl. lia.
Qed.

(** The loop never runs out of the fuel [max_iterations] gives it. *)
Lemma search_loop_fuel (fuel : nat) (st : search_state) :
  (Z.to_nat (max_iterations - iteration st) ≤ fuel)%nat → loop fuel st ≠ OutOfFuel.
Proof.
  revert st. induction fuel as [|fuel IH]; intros st Hfuel; simpl.
  - destruct (cond st) eqn:Hc; [|done].
    apply loop_cond_true in Hc. lia.
  - destruct (cond st) eqn:Hc; [|done].
    destruct (body st) as [st'| |] eqn:Hb; simpl; [|done|].
    + apply IH. assert (step st st') as Hs by done.
      apply step_iteration in Hs. lia.
    + by apply loop_body_not_OutOfFuel in Hb.
Qed.

(** A run of the loop that ends is a sequence of steps to a state where
    the condition is false; each step adds one to [iteration]. *)
Lemma search_loop_Ok (fuel : nat) (st st' : search_state) :
  loop fuel st = Ok st' →
  cond st' = false ∧ nsteps step (Z.to_nat (iteration st' - iteration st)) st st'.
Proof.
  revert st. induction fuel as [|fuel IH]; intros st; simpl.
  - destruct (cond st) eqn:Hc; [done|]. intros [= <-].
    split; [done|]. rewrite Z.sub_diag. constructor.
  - destruct (cond st) eqn:Hc.
    + destruct (body st) as [st1| |] eqn:Hb; simpl; [|done..].
      intros Hl. destruct (IH _ Hl) as [Hc' Hn]. split; [done|].
      assert (step st st1) as Hs by done.
      pose proof (step_iteration _ _ Hs) as [Hi _].
      assert (iteration st1 ≤ iteration st') as Hle.
      { clear -Hn Hi. remember (Z.to_nat (iteration st' - iteration st1)) as n eqn:Hk.
        destruct n; [inversion Hn; lia | lia]. }
      replace (Z.to_nat (iteration st' - iteration st))
        with (S (Z.to_nat (iteration st' - iteration st1))) by lia.
      by econstructor.
    + intros [= <-]. split; [done|]. rewrite Z.sub_diag. constructor.
Qed.

(** With a divisor that is not zero the loop ends. *)
Lemma search_loop_total (fuel : nat) (st : search_state) :
  target_points ≠ 0 →
  (Z.to_nat (max_iterations - iteration st) ≤ fuel)%nat →
  ∃ st', loop fuel st = Ok st'.
Proof.
  intros Htp. revert st. induction fuel as [|fuel IH]; intros st Hfuel; simpl.
  - destruct (cond st) eqn:Hc; [|by eexists].
    apply loop_cond_true in Hc. lia.
  - destruct (cond st) eqn:Hc; [|by eexists].
    destruct (body st) as [st1| |] eqn:Hb; simpl.
    + apply IH. assert (step st st1) as Hs by done.
      apply step_iteration in Hs. lia.
    + unfold loop_body, truediv in Hb.
      destruct (Z.eqb_spec target_points 0); [done | discriminate].
    + by apply loop_body_not_OutOfFuel in Hb.
Qed.

Lemma nsteps_iteration (n : nat) (st st' : search_state) :
  nsteps step n st st' → iteration st' = iteration st + Z.of_nat n.
Proof.
  induction 1 as [|n st st1 st' Hs _ IH]; [lia|].
  apply step_iteration in Hs. lia.
Qed.

(** A step multiplies the tolerance by a factor that is at most 2, and at
    least 1 when the count is not under [target_points]. *)
Lemma step_tolerance (st st' : search_state) :
  step st st' →
  (tolerance st' ==
   tolerance st *
   min (inject_Z (total_coords_count (simplified st)) / inject_Z target_points) 2)%Q.
Proof. intros [_ Hb]. apply loop_body_Ok in Hb as [_ ->]. simpl. reflexivity. Qed.

Lemma step_tolerance_pos (st st' : search_state) :
  1 ≤ target_points → step st st' → (0 < tolerance st)%Q → (0 < tolerance st')%Q.
Proof.
  intros Htp Hs Hpos. rewrite (step_tolerance _ _ Hs).
  destruct Hs as [Hc _]. apply loop_cond_true in Hc.
  apply Qmult_lt_0_compat; [done|].
  apply min_case; [apply ratio_pos; lia | done].
Qed.

Lemma visited_tolerance_pos (st : search_state) :
  1 ≤ target_points → rtc step init st → (0 < tolerance st)%Q.
Proof.
  intros Htp. revert st. apply rtc_ind_r; [done|].
  intros st1 st2 _ Hs IH. by eapply step_tolerance_pos.
Qed.

End SearchFacts.

(** ** The coordinate counter *)

(** C5. [total_coords_count] of a polygon is the length of the exterior
    ring plus the sum of the lengths of the interior rings; it is 0 for a
    geometry that is not a polygon; it is never negative. *)
Theorem total_coords_count_spec :
  (∀ p : polygon,
     total_coords_count (Polygon p) =
     Z.of_nat (length (exterior p)) + Z.of_nat (sum_list (length <$> interiors p))) ∧
  (∀ geom : geometry, isinstance_Polygon geom = false → total_coords_count geom = 0) ∧
  (∀ geom : geometry, 0 ≤ total_coords_count geom).
Proof.
  split; [|split].
  - intros [shell holes]. cbn [total_coords_count exterior interiors].
    rewrite map_cons, sum_cons. unfold len at 1. f_equal.
    induction holes as [|hole holes IH]; [done|].
    rewrite map_cons, sum_cons, fmap_cons. cbn [sum_list sum_list_with].
    rewrite Nat2Z.inj_add, <- IH. done.
  - intros geom Hp. by destruct geom.
  - apply total_coords_count_nonneg.
Qed.

Lemma total_coords_count_spec_witness :
  total_coords_count (Polygon Sample.holed_square) = 10 ∧
  total_coords_count (MultiPolygon [Sample.holed_square]) = 0.
Proof.
  destruct total_coords_count_spec as (Hpolygon & Hother & _). split.
  - rewrite Hpolygon. reflexivity.
  - apply Hother. reflexivity.
Defined.

(** ** The adaptive simplifier *)

Section SimplifierClaims.

Variable simplify : geometry → Q → bool → geometry.
Variables (geom : geometry) (target_points max_iterations : Z).

Notation cond := (loop_cond max_iterations).
Notation body := (loop_body simplify geom target_points).
Notation loop := (search_loop simplify geom target_points max_iterations).
Notation step := (search_step simplify geom target_points max_iterations).
Notation init := (search_init simplify geom).

(** The function ends, with a result or with [ZeroDivisionError]. *)
Lemma adaptive_polygon_simplify_total :
  adaptive_polygon_simplify simplify geom target_points max_iterations ≠ OutOfFuel.
Proof.
  unfold adaptive_polygon_simplify.
  destruct (total_coords_count geom <=? target_points); [done|].
  destruct (loop (Z.to_nat max_iterations) init) eqn:Hl; simpl; [done..|].
  apply search_loop_fuel in Hl; [done|]. simpl. lia.
Qed.

(** The fast path. *)
Lemma adaptive_polygon_simplify_fast :
  total_coords_count geom ≤ target_points →
  adaptive_polygon_simplify simplify geom target_points max_iterations =
  Ok (geom, 0%Q, total_coords_count geom, total_coords_count geom).
Proof.
  intros Hle. unfold adaptive_polygon_simplify.
  by destruct (Z.leb_spec (total_coords_count geom) target_points); [|lia].
Qed.

(** What the search returns, when the count is over [target_points] and
    the divisor is not zero: the state the loop ends in, after [n]
    steps. *)
Lemma adaptive_polygon_simplify_search :
  target_points < total_coords_count geom → target_points ≠ 0 →
  ∃ (st : search_state) (n : nat),
    nsteps step n init st ∧ cond st = false ∧ iteration st = Z.of_nat n ∧
    adaptive_polygon_simplify simplify geom target_points max_iterations =
    Ok (simplified st, tolerance st, total_coords_count geom,
        total_coords_count (simplified st)).
Proof.
  intros Hcount Htp. unfold adaptive_polygon_simplify.
  destruct (Z.leb_spec (total_coords_count geom) target_points) as [|_]; [lia|].
  destruct (search_loop_total simplify geom target_points max_iterations
              (Z.to_nat max_iterations) init Htp) as [st Hl]; [simpl; lia|].
  rewrite Hl. simpl. apply search_loop_Ok in Hl as [Hc Hn].
  exists st, (Z.to_nat (iteration st - iteration init)).
  split; [done|]. split; [done|]. split; [|done].
  apply nsteps_iteration in Hn. simpl in *. lia.
Qed.

(** C1, amended. With [target_points] at least 1 and [max_iterations] not
    negative, a polygon with more than [target_points] coordinates goes
    through the search loop, which goes on exactly while the count of the
    current geometry is over 780 (the constant, not [target_points]) and
    [iteration] is under [max_iterations]; the function returns, and either
    the count of the result is at most 780 or exactly [max_iterations]
    iterations were run; with [target_points] at most 781 (so that the
    tolerance never shrinks) the tolerance it returns is positive. *)
Theorem search_result :
  target_points < total_coords_count geom → 1 ≤ target_points → 0 ≤ max_iterations →
  (∀ st : search_state,
     cond st = true ↔
     780 < total_coords_count (simplified st) ∧ iteration st < max_iterations) ∧
  ∃ (st : search_state) (n : nat),
    nsteps step n init st ∧ cond st = false ∧
    adaptive_polygon_simplify simplify geom target_points max_iterations =
    Ok (simplified st, tolerance st, total_coords_count geom,
        total_coords_count (simplified st)) ∧
    (target_points ≤ 781 → (0 < tolerance st)%Q) ∧
    (total_coords_count (simplified st) ≤ 780 ∨ Z.of_nat n = max_iterations).
Proof.
  intros Hcount Htp Hmi. split; [apply loop_cond_true|].
  destruct adaptive_polygon_simplify_search as (st & n & Hn & Hc & Hi & Hr); [done|lia|].
  exists st, n. split; [done|]. split; [done|]. split; [done|]. split.
  - intros _. eapply visited_tolerance_pos; [done|]. by eapply rtc_nsteps_2.
  - apply loop_cond_false in Hc as [Hle|Hge]; [by left|right].
    destruct n as [|n]; [lia|].
    apply nsteps_inv_r in Hn as (st1 & Hn & Hs).
    apply nsteps_iteration in Hn. apply step_iteration in Hs. simpl in Hn. lia.
Qed.

(** C2, amended. With [target_points] at least 1, each step of the search
    gives a tolerance that is at most twice the one before; with
    [target_points] at most 781 (so that a count over 780 is not under
    it), the tolerance does not decrease. *)
Theorem tolerance_step (st st' : search_state) :
  1 ≤ target_points → rtc step init st → step st st' →
  (tolerance st' <= 2 * tolerance st)%Q ∧
  (target_points ≤ 781 → (tolerance st <= tolerance st')%Q).
Proof.
  intros Htp Hv Hs.
  pose proof (visited_tolerance_pos _ _ _ _ _ Htp Hv) as Hpos.
  rewrite (step_tolerance _ _ _ _ _ _ Hs).
  destruct Hs as [Hc _]. apply loop_cond_true in Hc as [Hc _].
  split.
  - rewrite (Qmult_comm 2). apply Qmult_le_l; [done|]. apply min_le_r.
  - intros Hle. rewrite <- (Qmult_1_r (tolerance st)) at 1.
    apply Qmult_le_l; [done|].
    apply min_case; [apply ratio_ge_1; lia | done].
Qed.

(** C3. A geometry whose count is at most [target_points] is returned as
    it is, with the tolerance 0 and its count twice; so the function run
    again on a result whose count is at most [target_points] returns that
    result as it is. *)
Theorem fast_path :
  (total_coords_count geom ≤ target_points →
   adaptive_polygon_simplify simplify geom target_points max_iterations =
   Ok (geom, 0%Q, total_coords_count geom, total_coords_count geom)) ∧
  (∀ (result : geometry) (tol : Q) (orig_pts simp_pts : Z),
     adaptive_polygon_simplify simplify geom target_points max_iterations =
     Ok (result, tol, orig_pts, simp_pts) →
     total_coords_count result ≤ target_points →
     adaptive_polygon_simplify simplify result target_points max_iterations =
     Ok (result, 0%Q, simp_pts, simp_pts)).
Proof.
  assert (∀ g, total_coords_count g ≤ target_points →
    adaptive_polygon_simplify simplify g target_points max_iterations =
    Ok (g, 0%Q, total_coords_count g, total_coords_count g)) as Hfast.
  { intros g Hle. unfold adaptive_polygon_simplify.
    by destruct (Z.leb_spec (total_coords_count g) target_points); [|lia]. }
  split; [apply Hfast|].
  intros result tol orig_pts simp_pts Hr Hle.
  assert (simp_pts = total_coords_count result) as ->; [|by apply Hfast].
  unfold adaptive_polygon_simplify in Hr.
  destruct (total_coords_count geom <=? target_points); [by inversion Hr|].
  destruct (loop _ _); simpl in Hr; [by inversion Hr | done..].
Qed.

(** C4. Every state of the search, the first pass included, holds the
    simplification of the input geometry at the current tolerance with
    [preserve_topology=True]; and the function asks nothing else of the
    primitive: two primitives that agree on the input geometry with
    [preserve_topology=True] give the same result. *)
Theorem resimplifies_original :
  (∀ st : search_state,
     rtc step init st → simplified st = simplify geom (tolerance st) true) ∧
  (∀ st st' : search_state,
     step st st' →
     simplified st' = simplify geom (tolerance st') true ∧
     (tolerance st' ==
      tolerance st *
      min (inject_Z (total_coords_count (simplified st)) / inject_Z target_points) 2)%Q) ∧
  (∀ simplify' : geometry → Q → bool → geometry,
     (∀ tol : Q, simplify' geom tol true = simplify geom tol true) →
     adaptive_polygon_simplify simplify' geom target_points max_iterations =
     adaptive_polygon_simplify simplify geom target_points max_iterations).
Proof.
  assert (∀ st st', step st st' → simplified st' = simplify geom (tolerance st') true)
    as Hstep.
  { intros st st' [_ Hb]. by apply loop_body_Ok in Hb as [_ ->]. }
  split; [|split].
  - apply rtc_ind_r; [done|]. intros st st' _ Hs _. by eapply Hstep.
  - intros st st' Hs. split; [by eapply Hstep | by eapply step_tolerance].
  - intros simplify' Hagree. unfold adaptive_polygon_simplify.
    destruct (total_coords_count geom <=? target_points); [done|].
    assert (search_init simplify' geom = init) as ->.
    { unfold search_init. by rewrite Hagree. }
    assert (∀ st, loop_body simplify' geom target_points st = body st) as Hbody.
    { intros st. unfold loop_body.
      destruct (truediv _ _); simpl; [by rewrite Hagree | done..]. }
    assert (∀ fuel st,
      search_loop simplify' geom target_points max_iterations fuel st = loop fuel st)
      as ->; [|done].
    induction fuel as [|fuel IH]; intros st; simpl; [done|].
    destruct (cond st); [|done]. rewrite Hbody.
    destruct (body st); simpl; [apply IH | done..].
Qed.

(** C9. A geometry that is not a polygon, a multi-polygon for one, is
    returned as it is for any [target_points] that is not negative, with
    the tolerance 0 and the two counts 0. *)
Theorem not_a_polygon :
  isinstance_Polygon geom = false → 0 ≤ target_points →
  total_coords_count geom = 0 ∧
  adaptive_polygon_simplify simplify geom target_points max_iterations =
  Ok (geom, 0%Q, 0, 0).
Proof.
  intros Hp Htp.
  assert (total_coords_count geom = 0) as Hz by by destruct geom.
  split; [done|]. unfold adaptive_polygon_simplify. rewrite Hz.
  by destruct (Z.leb_spec 0 target_points); [|lia].
Qed.

End SimplifierClaims.

(** ** The simplifier on the sample polygon *)

Example parabola_counts :
  total_coords_count Sample.parabola = 1200 ∧
  total_coords_count (Sample.simplify Sample.parabola tol0 true) = 900.
Proof. split; vm_compute; reflexivity. Qed.

Lemma search_result_witness :
  ∃ (st : search_state) (n : nat),
    nsteps (search_step Sample.simplify Sample.parabola 780 2) n
      (search_init Sample.simplify Sample.parabola) st ∧
    loop_cond 2 st = false ∧
    adaptive_polygon_simplify Sample.simplify Sample.parabola 780 2 =
    Ok (simplified st, tolerance st, total_coords_count Sample.parabola,
        total_coords_count (simplified st)) ∧
    (0 < tolerance st)%Q ∧
    (total_coords_count (simplified st) ≤ 780 ∨ Z.of_nat n = 2).
Proof.
  destruct (search_result Sample.simplify Sample.parabola 780 2)
    as (_ & st & n & Hn & Hc & Hr & Hpos & Hend).
  - vm_compute. reflexivity.
  - lia.
  - lia.
  - exists st, n. split; [exact Hn|]. split; [exact Hc|]. split; [exact Hr|].
    split; [apply Hpos; lia | exact Hend].
Defined.

(** C1 as it is worded fails for a negative [max_iterations]: the sample
    polygon has 1200 coordinates, the first pass leaves 900, the loop does
    not run, and the function returns a geometry of more than 780
    coordinates after 0 iterations, which is not [max_iterations]. *)
Lemma search_negative_max_iterations :
  780 < total_coords_count Sample.parabola ∧
  ∃ st : search_state,
    nsteps (search_step Sample.simplify Sample.parabola 780 (-1)) 0
      (search_init Sample.simplify Sample.parabola) st ∧
    loop_cond (-1) st = false ∧
    adaptive_polygon_simplify Sample.simplify Sample.parabola 780 (-1) =
    Ok (simplified st, tolerance st, 1200, 900) ∧
    ¬ (total_coords_count (simplified st) ≤ 780 ∨ Z.of_nat 0 = -1).
Proof.
  split; [vm_compute; reflexivity|].
  exists (search_init Sample.simplify Sample.parabola).
  split; [constructor|]. split; [vm_compute; reflexivity|].
  split; [vm_compute; reflexivity|].
  intros [Hle|Hn]; [|lia]. vm_compute in Hle. by apply Hle.
Qed.

Lemma tolerance_step_witness :
  ∃ st' : search_state,
    search_step Sample.simplify Sample.parabola 780 400
      (search_init Sample.simplify Sample.parabola) st' ∧
    (tolerance st' <= 2 * tol0)%Q ∧ (tol0 <= tolerance st')%Q.
Proof.
  set (st := search_init Sample.simplify Sample.parabola).
  set (tol := (tol0 * min (inject_Z 900 / inject_Z 780) 2)%Q).
  exists (mkState (Sample.simplify Sample.parabola tol true) tol 1).
  assert (search_step Sample.simplify Sample.parabola 780 400 st
            (mkState (Sample.simplify Sample.parabola tol true) tol 1)) as Hs.
  { split; vm_compute; reflexivity. }
  split; [exact Hs|].
  destruct (tolerance_step Sample.simplify Sample.parabola 780 400 st _
              ltac:(lia) (rtc_refl _ _) Hs) as [Hle Hge].
  split; [exact Hle | apply Hge; lia].
Defined.

(** C2 as it is worded fails for a [target_points] over 780: with 1000, the
    first pass leaves 900 coordinates, over 780 and under 1000, so the
    first step multiplies the tolerance by 0.9. *)
Lemma tolerance_decreases :
  ∃ st' : search_state,
    rtc (search_step Sample.simplify Sample.parabola 1000 400)
      (search_init Sample.simplify Sample.parabola)
      (search_init Sample.simplify Sample.parabola) ∧
    search_step Sample.simplify Sample.parabola 1000 400
      (search_init Sample.simplify Sample.parabola) st' ∧
    (tolerance st' == 9 # 100000000000)%Q ∧
    ¬ (tolerance (search_init Sample.simplify Sample.parabola) <= tolerance st')%Q.
Proof.
  set (tol := (tol0 * min (inject_Z 900 / inject_Z 1000) 2)%Q).
  exists (mkState (Sample.simplify Sample.parabola tol true) tol 1).
  split; [constructor|]. split; [split; vm_compute; reflexivity|].
  split; [vm_compute; reflexivity|].
  intros Hle. vm_compute in Hle. by apply Hle.
Qed.

Lemma fast_path_witness :
  adaptive_polygon_simplify Sample.simplify (Polygon Sample.holed_square) 780 400 =
  Ok (Polygon Sample.holed_square, 0%Q, 10, 10) ∧
  adaptive_polygon_simplify Sample.simplify
    (Sample.simplify Sample.parabola tol0 true) 1000 1 =
  Ok (Sample.simplify Sample.parabola tol0 true, 0%Q, 900, 900).
Proof.
  split.
  - apply (proj1 (fast_path Sample.simplify (Polygon Sample.holed_square) 780 400)).
    vm_compute. discriminate.
  - apply (proj2 (fast_path Sample.simplify Sample.parabola 1000 1)
             (Sample.simplify Sample.parabola tol0 true) (900 # 10000000000000) 1200 900).
    + vm_compute. reflexivity.
    + vm_compute. discriminate.
Defined.

Lemma resimplifies_original_witness :
  simplified (search_init Sample.simplify Sample.parabola) =
  Sample.simplify Sample.parabola tol0 true ∧
  adaptive_polygon_simplify
    (λ geom tol preserve_topology,
       if preserve_topology then Sample.simplify geom tol true else geom)
    Sample.parabola 780 3 =
  adaptive_polygon_simplify Sample.simplify Sample.parabola 780 3.
Proof.
  destruct (resimplifies_original Sample.simplify Sample.parabola 780 3)
    as (Hvisited & _ & Hagree).
  split.
  - apply Hvisited. constructor.
  - apply Hagree. intros tol. reflexivity.
Defined.

Lemma not_a_polygon_witness :
  total_coords_count (MultiPolygon [Sample.holed_square]) = 0 ∧
  adaptive_polygon_simplify Sample.simplify (MultiPolygon [Sample.holed_square]) 0 400 =
  Ok (MultiPolygon [Sample.holed_square], 0%Q, 0, 0).
Proof.
  apply (not_a_polygon Sample.simplify (MultiPolygon [Sample.holed_square]) 0 400).
  - reflexivity.
  - lia.
Defined.

(** ** The pipeline *)

Lemma eq_str_true (o : json) (s : string) : eq_str o s = true ↔ o = JString s.
Proof.
  destruct o; simpl; try (split; [discriminate | intros [=]]).
  rewrite String.eqb_eq. split; [by intros -> | by intros [= ->]].
Qed.

Lemma simplification_info_nonneg (tol : Q) (orig_pts simp_pts : Z) :
  (0 <= tol)%Q →
  simplification_info tol orig_pts simp_pts =
  if Qeq_bool tol 0 then "Aucune simplification"%string
  else (str orig_pts ++ "→" ++ str simp_pts ++ " points (tolérance=" ++
        format_0e tol ++ ")")%string.
Proof.
  intros Hge. unfold simplification_info.
  destruct (Qltb 0 tol) eqn:Hlt.
  - apply Qltb_lt in Hlt. destruct (Qeq_bool tol 0) eqn:He; [|done].
    apply Qeq_bool_iff in He. rewrite He in Hlt. by apply Qlt_irrefl in Hlt.
  - apply Qltb_ge in Hlt. destruct (Qeq_bool tol 0) eqn:He; [done|].
    apply Qeq_bool_neq in He. destruct He. by apply Qle_antisym.
Qed.

Section PipelineFacts.

Variable simplify : geometry → Q → bool → geometry.
Variable shape : json → option geometry.
Variable mapping : geometry → json.
Variable dumps : json → string.

Notation adaptive poly :=
  (adaptive_polygon_simplify simplify poly default_target_points default_max_iterations).
Notation on_poly := (poly_body simplify mapping dumps).
Notation on_polys := (for_polys simplify mapping dumps).
Notation on_feature := (feature_body simplify shape mapping dumps).
Notation on_features := (for_features simplify shape mapping dumps).
Notation gather := (collect simplify shape mapping dumps).

(** With the default arguments the simplifier returns, and the tolerance
    is not negative. *)
Lemma adaptive_default (poly : geometry) :
  ∃ (g : geometry) (tol : Q) (o n : Z),
    adaptive poly = Ok (g, tol, o, n) ∧ (0 <= tol)%Q.
Proof.
  destruct (Z.le_gt_cases (total_coords_count poly) default_target_points) as [Hle|Hgt].
  - eexists _, _, _, _. split; [by apply adaptive_polygon_simplify_fast | done].
  - destruct (adaptive_polygon_simplify_search simplify poly
                default_target_points default_max_iterations)
      as (st & n & Hn & _ & _ & Hr); [lia | done |].
    eexists _, _, _, _. split; [exact Hr|].
    apply Qlt_le_weak. eapply visited_tolerance_pos; [|by eapply rtc_nsteps_2].
    done.
Qed.

(** What the body of the inner loop appends, for properties that are a
    dictionary. *)
Lemma poly_body_dict (d : gmap string json) (poly : geometry) (out : outputs)
    (g : geometry) (tol : Q) (o n : Z) :
  adaptive poly = Ok (g, tol, o, n) →
  on_poly (JDict d) poly out =
  Ok (mkOutputs
        (all_records out ++
         [<["simplification_info" := JString (simplification_info tol o n)]>
            (<["geometry" :=
                 JString (dumps (JDict {[ "type" := JString "Feature";
                                          "geometry" := mapping g ]}))]> d)])
        (simplified_features out ++
         [JDict {[ "type" := JString "Feature"; "geometry" := mapping g;
                   "properties" := JDict d ]}])).
Proof. intros Hr. unfold poly_body. rewrite Hr. reflexivity. Qed.

Lemma poly_body_raise (props : json) (poly : geometry) (out : outputs) (e : exn) :
  on_poly props poly out = Raise e → e = AttributeError ∨ e = TypeError.
Proof.
  destruct (adaptive_default poly) as (g & tol & o & n & Hr & _).
  unfold poly_body. rewrite Hr. simpl.
  destruct props; simpl; intros [= <-]; auto.
Qed.

Lemma poly_body_total (props : json) (poly : geometry) (out : outputs) :
  on_poly props poly out ≠ OutOfFuel.
Proof.
  destruct (adaptive_default poly) as (g & tol & o & n & Hr & _).
  unfold poly_body. rewrite Hr. simpl.
  by destruct props.
Qed.

Lemma for_polys_raise (props : json) (polys : list geometry) (out : outputs) (e : exn) :
  on_polys props polys out = Raise e → e = AttributeError ∨ e = TypeError.
Proof.
  revert out. induction polys as [|poly polys IH]; intros out; simpl; [done|].
  destruct (on_poly props poly out) as [out'|e'|] eqn:Hb; simpl.
  - apply IH.
  - intros [= <-]. by eapply poly_body_raise.
  - done.
Qed.

Lemma for_polys_total (props : json) (polys : list geometry) (out : outputs) :
  on_polys props polys out ≠ OutOfFuel.
Proof.
  revert out. induction polys as [|poly polys IH]; intros out; simpl; [done|].
  destruct (on_poly props poly out) as [out'|e'|] eqn:Hb; simpl; [apply IH|done|].
  by apply poly_body_total in Hb.
Qed.

(** The inner loop on properties that are a dictionary: one row and one
    feature for each polygon, in the order of the polygons. *)
Lemma for_polys_dict (d : gmap string json) (polys : list geometry) (out : outputs) :
  ∃ (rows : list (gmap string json)) (feats : list json),
    on_polys (JDict d) polys out =
    Ok (mkOutputs (all_records out ++ rows) (simplified_features out ++ feats)) ∧
    Forall2 (λ poly row, ∃ g tol o n,
               adaptive poly = Ok (g, tol, o, n) ∧
               row !! "simplification_info" =
               Some (JString (simplification_info tol o n)) ∧
               ∀ k : string, k ≠ "geometry" → k ≠ "simplification_info" →
                             row !! k = d !! k) polys rows ∧
    Forall2 (λ poly feat, ∃ g tol o n,
               adaptive poly = Ok (g, tol, o, n) ∧
               feat = JDict {[ "type" := JString "Feature"; "geometry" := mapping g;
                               "properties" := JDict d ]}) polys feats.
Proof.
  revert out. induction polys as [|poly polys IH]; intros out; simpl.
  - exists [], []. rewrite !app_nil_r. by destruct out.
  - destruct (adaptive_default poly) as (g & tol & o & n & Hr & _).
    rewrite (poly_body_dict d poly out g tol o n Hr). simpl.
    edestruct IH as (rows & feats & -> & Hrows & Hfeats). simpl.
    rewrite <- !app_assoc. simpl. eexists _, _. split; [reflexivity|]. split.
    + constructor; [|done]. exists g, tol, o, n. split; [done|]. split.
      * apply lookup_insert_eq.
      * intros k Hk1 Hk2. by rewrite !lookup_insert_ne.
    + constructor; [|done]. by exists g, tol, o, n.
Qed.

Lemma feature_body_raise (feature : json) (out : outputs) (e : exn) :
  on_feature feature out = Raise e → e ≠ invalid_input.
Proof.
  unfold feature_body, get, getitem.
  destruct feature as [| | | | | |d]; simpl; try by intros [= <-].
  destruct (d !! "geometry") as [geometry|]; simpl; [|by intros [= <-]].
  destruct (shape geometry) as [geom|]; [|by intros [= <-]].
  destruct (explode geom) as [polys|]; [|done].
  intros Hr. by apply for_polys_raise in Hr as [-> | ->].
Qed.

Lemma feature_body_total (feature : json) (out : outputs) :
  on_feature feature out ≠ OutOfFuel.
Proof.
  unfold feature_body, get, getitem.
  destruct feature as [| | | | | |d]; simpl; try done.
  destruct (d !! "geometry") as [geometry|]; simpl; [|done].
  destruct (shape geometry) as [geom|]; [|done].
  destruct (explode geom) as [polys|]; [|done].
  apply for_polys_total.
Qed.

Lemma for_features_raise (features : list json) (out : outputs) (e : exn) :
  on_features features out = Raise e → e ≠ invalid_input.
Proof.
  revert out. induction features as [|feature features IH]; intros out; simpl; [done|].
  destruct (on_feature feature out) as [out'|e'|] eqn:Hb; simpl.
  - apply IH.
  - intros [= <-]. by eapply feature_body_raise.
  - done.
Qed.

Lemma for_features_total (features : list json) (out : outputs) :
  on_features features out ≠ OutOfFuel.
Proof.
  revert out. induction features as [|feature features IH]; intros out; simpl; [done|].
  destruct (on_feature feature out) as [out'|e'|] eqn:Hb; simpl; [apply IH|done|].
  by apply feature_body_total in Hb.
Qed.

(** The invalid-input error comes from a dictionary whose ["type"] is
    neither of the two kinds, and from nothing else. *)
Lemma features_of_invalid (data : json) :
  features_of data = Raise invalid_input ↔
  ∃ d : gmap string json,
    data = JDict d ∧
    d !! "type" ≠ Some (JString "FeatureCollection") ∧
    d !! "type" ≠ Some (JString "Feature").
Proof.
  unfold features_of, get.
  destruct data as [| | | | | |d]; simpl;
    try (split; [discriminate | by intros (d & [=] & _)]).
  destruct (eq_str (default JNull (d !! "type")) "FeatureCollection") eqn:Hfc.
  - apply eq_str_true in Hfc. split.
    + unfold getitem. destruct (d !! "features") as [features|]; simpl; [|discriminate].
      unfold invalid_input. by destruct features.
    + intros (d' & [= <-] & Hn & _). destruct Hn.
      destruct (d !! "type"); simpl in Hfc; by subst.
  - destruct (eq_str (default JNull (d !! "type")) "Feature") eqn:Hf.
    + apply eq_str_true in Hf. split; [discriminate|].
      intros (d' & [= <-] & _ & Hn). destruct Hn.
      destruct (d !! "type"); simpl in Hf; by subst.
    + split; [|done]. intros _. exists d. split; [done|].
      split; intros Ht; rewrite Ht in *; simpl in *; discriminate.
Qed.

Lemma collect_invalid (fs : gmap string file) (path : string) :
  gather fs path = Raise invalid_input ↔
  ∃ d : gmap string json,
    json_load fs path = Ok (JDict d) ∧
    d !! "type" ≠ Some (JString "FeatureCollection") ∧
    d !! "type" ≠ Some (JString "Feature").
Proof.
  unfold collect.
  destruct (json_load fs path) as [data|e|] eqn:Hload; simpl.
  - split.
    + intros Hr. assert (features_of data = Raise invalid_input) as Hi.
      { destruct (features_of data) as [features|e|] eqn:Hf; simpl in Hr;
          [by apply for_features_raise in Hr | by inversion Hr | done]. }
      apply features_of_invalid in Hi as (d & -> & Ht). eauto.
    + intros (d & [= ->] & Ht).
      assert (features_of (JDict d) = Raise invalid_input) as ->
        by (apply features_of_invalid; eauto).
      done.
  - split; [|by intros (d & [=] & _)].
    unfold json_load in Hload. intros [= ->].
    destruct (fs !! path) as [[]|]; discriminate.
  - split; [done | by intros (d & [=] & _)].
Qed.

End PipelineFacts.

Section PipelineClaims.

Variable simplify : geometry → Q → bool → geometry.
Variable shape : json → option geometry.
Variable mapping : geometry → json.
Variable dumps : json → string.

Notation adaptive poly :=
  (adaptive_polygon_simplify simplify poly default_target_points default_max_iterations).
Notation on_poly := (poly_body simplify mapping dumps).
Notation on_polys := (for_polys simplify mapping dumps).
Notation on_feature := (feature_body simplify shape mapping dumps).
Notation run :=
  (geojson_to_excel_with_exploded_multipolygons simplify shape mapping dumps).

(** C6. The body of the loop on the features runs the inner loop on the
    polygons of the geometry, each time with the properties of the feature:
    the [N] parts of a multi-polygon, the polygon itself for a polygon, and
    nothing for any other kind, for which the outputs are left as they are
    and nothing is raised. For properties that are a dictionary this gives
    as many rows and features as polygons; every feature has the properties
    of the input feature and every row has its attributes. *)
Theorem explodes_multipolygons
    (feature : gmap string json) (geometry_json : json) (geom : geometry) (out : outputs) :
  feature !! "geometry" = Some geometry_json → shape geometry_json = Some geom →
  ∃ polys : list geometry,
    on_feature (JDict feature) out =
    on_polys (default (JDict ∅) (feature !! "properties")) polys out ∧
    (∀ parts : list polygon,
       geom = MultiPolygon parts →
       polys = Polygon <$> parts ∧ length polys = length parts) ∧
    (∀ p : polygon, geom = Polygon p → polys = [Polygon p]) ∧
    (isinstance_MultiPolygon geom = false → isinstance_Polygon geom = false →
     polys = [] ∧ on_feature (JDict feature) out = Ok out) ∧
    (∀ d : gmap string json,
       default (JDict ∅) (feature !! "properties") = JDict d →
       ∃ (rows : list (gmap string json)) (feats : list json),
         on_feature (JDict feature) out =
         Ok (mkOutputs (all_records out ++ rows) (simplified_features out ++ feats)) ∧
         length rows = length polys ∧ length feats = length polys ∧
         Forall (λ feat, getitem feat "properties" = Ok (JDict d)) feats ∧
         Forall (λ row : gmap string json,
                   ∀ k : string, k ≠ "geometry" → k ≠ "simplification_info" →
                                 row !! k = d !! k) rows).
Proof.
  intros Hgeometry Hshape.
  set (props := default (JDict ∅) (feature !! "properties")).
  exists (default [] (explode geom)).
  assert (on_feature (JDict feature) out = on_polys props (default [] (explode geom)) out)
    as Hbody.
  { unfold feature_body, get, getitem. simpl.
    rewrite Hgeometry. simpl. rewrite Hshape. by destruct (explode geom). }
  split; [exact Hbody|]. split; [|split; [|split]].
  - intros parts ->. simpl. by rewrite length_fmap.
  - by intros p ->.
  - intros Hmulti Hpoly. rewrite Hbody. unfold explode. by rewrite Hmulti, Hpoly.
  - intros d Hd. rewrite Hbody, Hd.
    destruct (for_polys_dict simplify mapping dumps d (default [] (explode geom)) out)
      as (rows & feats & Hr & Hrows & Hfeats).
    exists rows, feats. split; [exact Hr|].
    split; [symmetry; by eapply Forall2_length|].
    split; [symmetry; by eapply Forall2_length|]. split.
    + eapply Forall2_Forall_r; [exact Hfeats|]. apply Forall_true.
      intros poly feat (g & tol & o & n & _ & ->). unfold getitem.
      by rewrite !lookup_insert_ne, lookup_singleton_eq.
    + eapply Forall2_Forall_r; [exact Hrows|]. apply Forall_true.
      by intros poly row (g & tol & o & n & _ & _ & Hk).
Qed.

(** C7. The run raises the invalid-input error exactly when the document
    read from the input file is a dictionary whose ["type"] is neither
    ["FeatureCollection"] nor ["Feature"]; a run that raises this error
    leaves the file system as it was; and the run ends. *)
Theorem invalid_input_kind
    (fs : gmap string file)
    (input_geojson_path output_excel_path output_geojson_path : string) :
  ((run fs input_geojson_path output_excel_path output_geojson_path).1 =
   Raise invalid_input ↔
   ∃ d : gmap string json,
     json_load fs input_geojson_path = Ok (JDict d) ∧
     d !! "type" ≠ Some (JString "FeatureCollection") ∧
     d !! "type" ≠ Some (JString "Feature")) ∧
  ((run fs input_geojson_path output_excel_path output_geojson_path).1 =
   Raise invalid_input →
   (run fs input_geojson_path output_excel_path output_geojson_path).2 = fs) ∧
  (run fs input_geojson_path output_excel_path output_geojson_path).1 ≠ OutOfFuel.
Proof.
  rewrite <- (collect_invalid simplify shape mapping dumps).
  unfold geojson_to_excel_with_exploded_multipolygons.
  destruct (collect simplify shape mapping dumps fs input_geojson_path)
    as [out|e|] eqn:Hc; simpl.
  - split; [split; intros [=] | split; [intros [=] | done]].
  - split; [split; by intros [= ->] | split; [done | done]].
  - exfalso. revert Hc. unfold collect.
    destruct (json_load fs input_geojson_path) as [data| |] eqn:Hl; simpl; [|done|].
    + destruct (features_of data) as [features| |] eqn:Hf; simpl.
      * apply for_features_total.
      * done.
      * unfold features_of, get, getitem, iter in Hf.
        destruct data as [| | | | | |d]; simpl in Hf; try done.
        destruct (eq_str _ "FeatureCollection").
        -- destruct (d !! "features") as [[]|]; done.
        -- by destruct (eq_str _ "Feature").
    + unfold json_load in Hl. by destruct (fs !! input_geojson_path) as [[]|].
Qed.

(** C8. For a polygon the pipeline emits (the properties are a dictionary),
    the cell [simplification_info] of its row is ["Aucune simplification"]
    when the tolerance the simplifier returned is 0, and otherwise the
    two counts and the tolerance in scientific notation with no decimal. *)
Theorem simplification_info_cell (d : gmap string json) (poly : geometry) (out : outputs) :
  ∃ (g : geometry) (tol : Q) (o n : Z) (row : gmap string json) (feat : json),
    adaptive poly = Ok (g, tol, o, n) ∧
    on_poly (JDict d) poly out =
    Ok (mkOutputs (all_records out ++ [row]) (simplified_features out ++ [feat])) ∧
    row !! "simplification_info" =
    Some (JString
            (if Qeq_bool tol 0 then "Aucune simplification"
             else str o ++ "→" ++ str n ++ " points (tolérance=" ++
                  format_0e tol ++ ")")%string).
Proof.
  destruct (adaptive_default simplify poly) as (g & tol & o & n & Hr & Hge).
  eexists g, tol, o, n, _, _. split; [exact Hr|].
  split; [by apply poly_body_dict|].
  rewrite lookup_insert_eq. by rewrite simplification_info_nonneg.
Qed.

(** C10. For a polygon with more than [target_points] coordinates, the
    first pass is made at the tolerance [1e-10] before the condition of the
    loop is evaluated; when that pass leaves at most 780 coordinates no step
    of the loop is taken and the function returns the result of that pass
    with the tolerance [1e-10], which is positive. The cell
    [simplification_info] for this tolerance is the summary, whatever the
    two counts, equal or not, and so is the cell of the row the pipeline
    emits for such a polygon. *)
Theorem first_pass_suffices (geom : geometry) (target_points max_iterations : Z) :
  target_points < total_coords_count geom →
  total_coords_count (simplify geom tol0 true) ≤ 780 →
  search_init simplify geom = mkState (simplify geom tol0 true) tol0 0 ∧
  (∀ st' : search_state,
     ¬ search_step simplify geom target_points max_iterations
         (search_init simplify geom) st') ∧
  adaptive_polygon_simplify simplify geom target_points max_iterations =
  Ok (simplify geom tol0 true, tol0, total_coords_count geom,
      total_coords_count (simplify geom tol0 true)) ∧
  (tol0 == 1 / inject_Z (10 ^ 10))%Q ∧ (0 < tol0)%Q ∧
  (∀ o n : Z,
     simplification_info tol0 o n =
     (str o ++ "→" ++ str n ++ " points (tolérance=1e-10)")%string) ∧
  (target_points = default_target_points →
   ∀ (d : gmap string json) (out : outputs),
   ∃ (row : gmap string json) (feat : json),
     on_poly (JDict d) geom out =
     Ok (mkOutputs (all_records out ++ [row]) (simplified_features out ++ [feat])) ∧
     row !! "simplification_info" =
     Some (JString (str (total_coords_count geom) ++ "→" ++
                    str (total_coords_count (simplify geom tol0 true)) ++
                    " points (tolérance=1e-10)")%string)).
Proof.
  intros Hcount Hpass.
  assert (∀ mi, loop_cond mi (search_init simplify geom) = false) as Hcond.
  { intros mi. apply loop_cond_false. left. exact Hpass. }
  assert (∀ tp mi, tp < total_coords_count geom →
            adaptive_polygon_simplify simplify geom tp mi =
            Ok (simplify geom tol0 true, tol0, total_coords_count geom,
                total_coords_count (simplify geom tol0 true))) as Hresult.
  { intros tp mi Htp. unfold adaptive_polygon_simplify.
    destruct (Z.leb_spec (total_coords_count geom) tp); [lia|].
    destruct (Z.to_nat mi); simpl; by rewrite Hcond. }
  assert (∀ o n, simplification_info tol0 o n =
            (str o ++ "→" ++ str n ++ " points (tolérance=1e-10)")%string) as Hinfo.
  { intros o n. unfold simplification_info.
    replace (Qltb 0 tol0) with true by (vm_compute; reflexivity).
    replace (format_0e tol0) with "1e-10"%string by (vm_compute; reflexivity).
    reflexivity. }
  split; [done|]. split.
  { intros st' [Hc _]. by rewrite Hcond in Hc. }
  split; [by apply Hresult|]. split; [done|]. split; [done|]. split; [exact Hinfo|].
  intros -> d out. eexists _, _.
  split; [apply poly_body_dict; by apply Hresult|].
  by rewrite lookup_insert_eq, Hinfo.
Qed.

End PipelineClaims.

(** ** The pipeline on sample inputs *)

Lemma explodes_multipolygons_witness :
  ∃ (rows : list (gmap string json)) (feats : list json),
    feature_body Sample.simplify Sample.shape Sample.mapping Sample.dumps
      Sample.multipolygon_feature (mkOutputs [] []) =
    Ok (mkOutputs rows feats) ∧
    length rows = 3%nat ∧ length feats = 3%nat.
Proof.
  destruct (explodes_multipolygons Sample.simplify Sample.shape Sample.mapping Sample.dumps
              (Sample.feature_fields (Sample.mapping (MultiPolygon Sample.three_squares)))
              (Sample.mapping (MultiPolygon Sample.three_squares))
              (MultiPolygon Sample.three_squares) (mkOutputs [] []))
    as (polys & _ & Hmulti & _ & _ & Hdict).
  - vm_compute. reflexivity.
  - vm_compute. reflexivity.
  - destruct (Hmulti Sample.three_squares eq_refl) as [_ Hlen].
    destruct (Hdict {[ "name" := JString "parcelle"; "code" := JInt 95 ]})
      as (rows & feats & Hr & Hrows & Hfeats & _).
    + vm_compute. reflexivity.
    + exists rows, feats. split; [exact Hr|].
      rewrite Hrows, Hfeats, Hlen. split; reflexivity.
Defined.

Lemma invalid_input_kind_witness :
  Sample.run {[ "in.geojson" := JsonFile (JDict {[ "type" := JString "Topology" ]}) ]}
    "in.geojson" "out.xlsx" "out.geojson" =
  (Raise invalid_input,
   {[ "in.geojson" := JsonFile (JDict {[ "type" := JString "Topology" ]}) ]}).
Proof.
  unfold Sample.run.
  destruct (invalid_input_kind Sample.simplify Sample.shape Sample.mapping Sample.dumps
              {[ "in.geojson" := JsonFile (JDict {[ "type" := JString "Topology" ]}) ]}
              "in.geojson" "out.xlsx" "out.geojson") as (Hiff & Hfs & _).
  assert (∃ d : gmap string json,
            json_load
              {[ "in.geojson" := JsonFile (JDict {[ "type" := JString "Topology" ]}) ]}
              "in.geojson" = Ok (JDict d) ∧
            d !! "type" ≠ Some (JString "FeatureCollection") ∧
            d !! "type" ≠ Some (JString "Feature")) as Hkind.
  { exists {[ "type" := JString "Topology" ]}.
    split; [vm_compute; reflexivity|]. split; vm_compute; discriminate. }
  apply Hiff in Hkind. pose proof (Hfs Hkind) as Hsame.
  destruct (geojson_to_excel_with_exploded_multipolygons _ _ _ _ _ _ _ _) as [r fs'].
  simpl in *. by subst.
Defined.

Lemma first_pass_suffices_witness :
  adaptive_polygon_simplify Sample.simplify Sample.dotted_square 780 400 =
  Ok (Sample.simplify Sample.dotted_square tol0 true, tol0, 801, 5) ∧
  simplification_info tol0 801 5 = "801→5 points (tolérance=1e-10)"%string.
Proof.
  destruct (first_pass_suffices Sample.simplify Sample.mapping Sample.dumps
              Sample.dotted_square 780 400) as (_ & _ & Hr & _ & _ & Hinfo & _).
  - vm_compute. reflexivity.
  - vm_compute. discriminate.
  - split; [exact Hr | exact (Hinfo 801 5)].
Defined.

(** A direct call with a [target_points] under the count of a small
    polygon: no step, the tolerance [1e-10], and the same count twice. *)
Example first_pass_same_count :
  adaptive_polygon_simplify Sample.simplify (Polygon (mkPolygon (Sample.square 0 0 10) [])) 4 400 =
  Ok (Polygon (mkPolygon (Sample.square 0 0 10) []), tol0, 5, 5) ∧
  simplification_info tol0 5 5 = "5→5 points (tolérance=1e-10)"%string.
Proof. split; vm_compute; reflexivity. Qed.

(** A collection of a multi-polygon of three small polygons, a line string
    with null properties and a small polygon: four rows, none simplified;
    the line string gives no row and no error. *)
Example run_small_polygons :
  let fs : gmap string file :=
    {[ "in.geojson" :=
         JsonFile (Sample.collection [Sample.multipolygon_feature;
                                      Sample.linestring_feature;
                                      Sample.polygon_feature]) ]} in
  let result := Sample.run fs "in.geojson" "out.xlsx" "out.geojson" in
  result.1 = Ok () ∧
  Sample.info_column result.2 "out.xlsx" =
  [Some (JString "Aucune simplification"); Some (JString "Aucune simplification");
   Some (JString "Aucune simplification"); Some (JString "Aucune simplification")].
Proof. split; vm_compute; reflexivity. Qed.

(** A single feature with a polygon of 801 coordinates. *)
Example run_dotted_square :
  let fs : gmap string file :=
    {[ "in.geojson" := JsonFile (Sample.feature (Sample.mapping Sample.dotted_square)) ]} in
  let result := Sample.run fs "in.geojson" "out.xlsx" "out.geojson" in
  result.1 = Ok () ∧
  Sample.info_column result.2 "out.xlsx" =
  [Some (JString "801→5 points (tolérance=1e-10)")].
Proof. split; vm_compute; reflexivity. Qed.

(** A polygon feature whose properties are null: [props.copy()] raises and
    nothing is written. *)
Example run_null_properties :
  let fs : gmap string file :=
    {[ "in.geojson" :=
         JsonFile (JDict {[ "type" := JString "Feature";
                            "geometry" := Sample.mapping (Polygon Sample.holed_square);
                            "properties" := JNull ]}) ]} in
  Sample.run fs "in.geojson" "out.xlsx" "out.geojson" = (Raise AttributeError, fs).
Proof. vm_compute. reflexivity. Qed.

(** The format [.0e] on a few values: one digit, ties to the even digit, a
    carry into the exponent, and exponents of two digits at least. *)
Example format_0e_samples :
  format_0e tol0 = "1e-10"%string ∧
  format_0e (256 # 10000000000) = "3e-08"%string ∧
  format_0e (25 # 10) = "2e+00"%string ∧
  format_0e (35 # 10) = "4e+00"%string ∧
  format_0e (999 # 100) = "1e+01"%string ∧
  format_0e (inject_Z (10 ^ 100)) = "1e+100"%string.
Proof. repeat split; vm_compute; reflexivity. Qed.

(** * Further properties of the simplifier *)

Section SimplifierExtras.

Variable simplify : geometry → Q → bool → geometry.
Variables (geom : geometry) (target_points max_iterations : Z).

Notation cond := (loop_cond max_iterations).
Notation body := (loop_body simplify geom target_points).
Notation loop := (search_loop simplify geom target_points max_iterations).
Notation step := (search_step simplify geom target_points max_iterations).
Notation init := (search_init simplify geom).

(** A sequence of steps from the first pass has at most [max_iterations]
    steps. *)
Lemma nsteps_bound (n : nat) (st : search_state) :
  nsteps step n init st → Z.of_nat n ≤ Z.max 0 max_iterations.
Proof.
  destruct n as [|n]; [lia|]. intros Hn.
  apply nsteps_inv_r in Hn as (st1 & Hn & Hs).
  apply nsteps_iteration in Hn. apply step_iteration in Hs. simpl in Hn. lia.
Qed.

(** A sequence of steps to a state where the condition is false is the run
    of the loop, whatever fuel is left over. *)
Lemma search_loop_complete (n fuel : nat) (st st' : search_state) :
  nsteps step n st st' → cond st' = false → (n ≤ fuel)%nat → loop fuel st = Ok st'.
Proof.
  intros Hn Hc. revert fuel. induction Hn as [st|n st st1 st' [Hc1 Hb1] _ IH]; intros fuel Hf.
  - destruct fuel; simpl; by rewrite Hc.
  - destruct fuel as [|fuel]; [lia|]. simpl. rewrite Hc1, Hb1. simpl.
    apply IH; [done | lia].
Qed.

(** The tolerance after [n] steps, for a positive [target_points]. *)
Lemma nsteps_tolerance (n : nat) (st : search_state) :
  1 ≤ target_points → nsteps step n init st →
  (tolerance st <= tol0 * inject_Z (2 ^ Z.of_nat n))%Q ∧
  (target_points ≤ 781 → (tol0 <= tolerance st)%Q).
Proof.
  intros Htp. revert st. induction n as [|n IH]; intros st Hn.
  - inversion Hn; subst. simpl. split; [|intros _; apply Qle_refl].
    rewrite Qmult_1_r. apply Qle_refl.
  - apply nsteps_inv_r in Hn as (st1 & Hn & Hs).
    destruct (IH _ Hn) as [Hup Hlow].
    assert (0 < tolerance st1)%Q as Hpos.
    { eapply visited_tolerance_pos; [done|]. by eapply rtc_nsteps_2. }
    pose proof (step_tolerance _ _ _ _ _ _ Hs) as Ht.
    destruct Hs as [Hc _]. apply loop_cond_true in Hc as [Hc _].
    split.
    + rewrite Ht. rewrite Nat2Z.inj_succ, Z.pow_succ_r by lia.
      rewrite inject_Z_mult.
      apply Qle_trans with (tolerance st1 * 2)%Q.
      * apply Qmult_le_l; [done|]. apply min_le_r.
      * change (inject_Z 2) with 2%Q.
        assert (tol0 * (2 * inject_Z (2 ^ Z.of_nat n)) ==
                tol0 * inject_Z (2 ^ Z.of_nat n) * 2)%Q as -> by ring.
        apply Qmult_le_compat_r; [done|]. done.
    + intros Hle. apply Qle_trans with (tolerance st1); [by apply Hlow|].
      rewrite Ht. rewrite <- (Qmult_1_r (tolerance st1)) at 1.
      apply Qmult_le_l; [done|].
      apply min_case; [apply ratio_ge_1; lia | done].
Qed.

(** X1. For a [target_points] that is not negative (the tolerance is then
    never negative), the only exception of the simplifier is
    [ZeroDivisionError], and it is raised exactly when [target_points] is 0,
    the geometry has coordinates, the first pass leaves more than 780 of
    them and [max_iterations] is positive. *)
Theorem raises_zero_division (e : exn) :
  0 ≤ target_points →
  adaptive_polygon_simplify simplify geom target_points max_iterations = Raise e ↔
  e = ZeroDivisionError ∧ target_points = 0 ∧ 0 < total_coords_count geom ∧
  780 < total_coords_count (simplify geom tol0 true) ∧ 0 < max_iterations.
Proof.
  intros _. unfold adaptive_polygon_simplify.
  destruct (Z.leb_spec (total_coords_count geom) target_points) as [Hle|Hgt].
  { split; [done|]. intros (_ & -> & Hpos & _). lia. }
  destruct (Z.eq_dec target_points 0) as [Hz|Hnz].
  - destruct (Z.to_nat max_iterations) as [|fuel] eqn:Hfuel; simpl.
    + destruct (cond init) eqn:Hc; simpl.
      * apply loop_cond_true in Hc. simpl in Hc. lia.
      * split; [done|]. intros (_ & _ & _ & _ & Hmi). lia.
    + destruct (cond init) eqn:Hc; simpl.
      * apply loop_cond_true in Hc as [Hc Hmi]. simpl in Hc, Hmi.
        unfold loop_body, truediv. rewrite Hz. simpl.
        split; [intros [= <-]; repeat split; (done || lia) | by intros (-> & _)].
      * split; [done|]. intros (_ & _ & _ & Hc' & Hmi).
        apply loop_cond_false in Hc. simpl in Hc. lia.
  - destruct (search_loop_total simplify geom target_points max_iterations
                (Z.to_nat max_iterations) init Hnz) as [st ->]; [simpl; lia|].
    simpl. split; [done|]. by intros (_ & Hz & _).
Qed.

(** X2. The loop takes at most [max_iterations] steps, and none when
    [max_iterations] is zero or negative: the function then returns the
    first pass, at the tolerance [1e-10], whatever [target_points] is. *)
Theorem iterations_bounded :
  (∀ (n : nat) (st : search_state),
     nsteps step n init st → Z.of_nat n ≤ Z.max 0 max_iterations) ∧
  (max_iterations ≤ 0 → target_points < total_coords_count geom →
   adaptive_polygon_simplify simplify geom target_points max_iterations =
   Ok (simplify geom tol0 true, tol0, total_coords_count geom,
       total_coords_count (simplify geom tol0 true))).
Proof.
  split; [apply nsteps_bound|].
  intros Hmi Hcount. unfold adaptive_polygon_simplify.
  destruct (Z.leb_spec (total_coords_count geom) target_points); [lia|].
  replace (Z.to_nat max_iterations) with O by lia. simpl.
  destruct (cond init) eqn:Hc; [|done].
  apply loop_cond_true in Hc. simpl in Hc. lia.
Qed.

(** X3. For a positive [target_points] and a [max_iterations] from 0 to
    1000 (up to which [1e-10 * 2 ^ max_iterations] is a finite double), the
    tolerance the search returns is at most [1e-10 * 2 ^ max_iterations];
    it is at least [1e-10] when [target_points] is at most 781. *)
Theorem tolerance_bounds (result : geometry) (tol : Q) (orig_pts simp_pts : Z) :
  target_points < total_coords_count geom → 1 ≤ target_points →
  0 ≤ max_iterations ≤ 1000 →
  adaptive_polygon_simplify simplify geom target_points max_iterations =
  Ok (result, tol, orig_pts, simp_pts) →
  (tol <= tol0 * inject_Z (2 ^ max_iterations))%Q ∧
  (target_points ≤ 781 → (tol0 <= tol)%Q).
Proof.
  intros Hcount Htp [Hmi _] Hr.
  destruct (adaptive_polygon_simplify_search simplify geom target_points max_iterations)
    as (st & n & Hn & _ & _ & Hr'); [done | lia |].
  rewrite Hr' in Hr. injection Hr as _ <- _ _.
  destruct (nsteps_tolerance n st Htp Hn) as [Hup Hlow]. split; [|done].
  apply Qle_trans with (tol0 * inject_Z (2 ^ Z.of_nat n))%Q; [done|].
  apply Qmult_le_l; [done|]. rewrite <- Zle_Qle.
  apply nsteps_bound in Hn. apply Z.pow_le_mono_r; lia.
Qed.

End SimplifierExtras.

Lemma search_step_more_iterations
    (simplify : geometry → Q → bool → geometry) (geom : geometry)
    (target_points max_iterations max_iterations' : Z) (n : nat) (st st' : search_state) :
  max_iterations ≤ max_iterations' →
  nsteps (search_step simplify geom target_points max_iterations) n st st' →
  nsteps (search_step simplify geom target_points max_iterations') n st st'.
Proof.
  intros Hle. induction 1 as [|n st st1 st' [Hc Hb] _ IH]; [constructor|].
  econstructor; [|exact IH]. split; [|exact Hb].
  apply loop_cond_true in Hc. apply loop_cond_true. lia.
Qed.

(** X4. A result of at most 780 coordinates does not depend on the cap: the
    function returns the same with any larger [max_iterations]. *)
Theorem converged_result_stable
    (simplify : geometry → Q → bool → geometry) (geom : geometry)
    (target_points max_iterations max_iterations' : Z)
    (result : geometry) (tol : Q) (orig_pts simp_pts : Z) :
  adaptive_polygon_simplify simplify geom target_points max_iterations =
  Ok (result, tol, orig_pts, simp_pts) →
  simp_pts ≤ 780 → max_iterations ≤ max_iterations' →
  adaptive_polygon_simplify simplify geom target_points max_iterations' =
  Ok (result, tol, orig_pts, simp_pts).
Proof.
  unfold adaptive_polygon_simplify. intros Hr Hpts Hle.
  destruct (total_coords_count geom <=? target_points); [done|].
  destruct (search_loop simplify geom target_points max_iterations
              (Z.to_nat max_iterations) (search_init simplify geom))
    as [st| |] eqn:Hl; simpl in Hr; [|done..].
  injection Hr as <- <- <- <-.
  apply search_loop_Ok in Hl as [_ Hn].
  pose proof (nsteps_bound _ _ _ _ _ _ Hn) as Hbound.
  apply (search_step_more_iterations _ _ _ _ max_iterations') in Hn; [|done].
  rewrite (search_loop_complete _ _ _ _ _ _ _ _ Hn); [done| |lia].
  apply loop_cond_false. by left.
Qed.

(** X5. In a result [(geometry, tolerance, original, final)], [original] is
    the count of the input and [final] the count of the geometry returned;
    an input within [target_points] comes back as it is with the tolerance
    0; and for a [target_points] from 1 to 781 the tolerance is 0 in that
    case only. *)
Theorem returned_counts
    (simplify : geometry → Q → bool → geometry) (geom : geometry)
    (target_points max_iterations : Z)
    (result : geometry) (tol : Q) (orig_pts simp_pts : Z) :
  adaptive_polygon_simplify simplify geom target_points max_iterations =
  Ok (result, tol, orig_pts, simp_pts) →
  orig_pts = total_coords_count geom ∧
  simp_pts = total_coords_count result ∧
  (total_coords_count geom ≤ target_points → result = geom ∧ tol = 0%Q) ∧
  (1 ≤ target_points ≤ 781 →
   (tol == 0)%Q ↔ total_coords_count geom ≤ target_points).
Proof.
  unfold adaptive_polygon_simplify. intros Hr.
  destruct (Z.leb_spec (total_coords_count geom) target_points) as [Hle|Hgt].
  - injection Hr as <- <- <- <-. repeat split; done.
  - destruct (search_loop simplify geom target_points max_iterations
                (Z.to_nat max_iterations) (search_init simplify geom))
      as [st| |] eqn:Hl; simpl in Hr; [|done..].
    injection Hr as <- <- <- <-.
    split; [done|]. split; [done|]. split; [lia|].
    intros [Htp _]. split; [|lia]. intros Hz.
    apply search_loop_Ok in Hl as [_ Hn]. apply rtc_nsteps_2 in Hn.
    apply (visited_tolerance_pos _ _ _ _ _ Htp) in Hn.
    rewrite Hz in Hn. by apply Qlt_irrefl in Hn.
Qed.

Lemma raises_zero_division_witness :
  adaptive_polygon_simplify Sample.simplify Sample.parabola 0 1 = Raise ZeroDivisionError.
Proof.
  apply (raises_zero_division Sample.simplify Sample.parabola 0 1 ZeroDivisionError);
    [lia|].
  split; [reflexivity|]. split; [reflexivity|].
  split; [vm_compute; reflexivity|]. split; [vm_compute; reflexivity | lia].
Defined.

Lemma iterations_bounded_witness :
  adaptive_polygon_simplify Sample.simplify Sample.parabola 780 0 =
  Ok (Sample.simplify Sample.parabola tol0 true, tol0, 1200, 900).
Proof.
  apply (proj2 (iterations_bounded Sample.simplify Sample.parabola 780 0)).
  - lia.
  - vm_compute. reflexivity.
Defined.

Lemma tolerance_bounds_witness :
  (tol0 * min (inject_Z 900 / inject_Z 780) 2 * min (inject_Z 900 / inject_Z 780) 2 <=
   tol0 * inject_Z (2 ^ 2))%Q ∧
  (tol0 <= tol0 * min (inject_Z 900 / inject_Z 780) 2 * min (inject_Z 900 / inject_Z 780) 2)%Q.
Proof.
  destruct (tolerance_bounds Sample.simplify Sample.parabola 780 2
              (Sample.simplify Sample.parabola tol0 true)
              (tol0 * min (inject_Z 900 / inject_Z 780) 2 *
               min (inject_Z 900 / inject_Z 780) 2)%Q 1200 900) as [Hup Hlow].
  - vm_compute. reflexivity.
  - lia.
  - lia.
  - vm_compute. reflexivity.
  - split; [exact Hup | apply Hlow; lia].
Defined.

Lemma converged_result_stable_witness :
  adaptive_polygon_simplify Sample.simplify Sample.dotted_square 780 400 =
  Ok (Sample.simplify Sample.dotted_square tol0 true, tol0, 801, 5).
Proof.
  apply (converged_result_stable Sample.simplify Sample.dotted_square 780 0 400).
  - vm_compute. reflexivity.
  - lia.
  - lia.
Defined.

Lemma returned_counts_witness :
  1200 = total_coords_count Sample.parabola ∧
  900 = total_coords_count (Sample.simplify Sample.parabola tol0 true).
Proof.
  destruct (returned_counts Sample.simplify Sample.parabola 780 0
              (Sample.simplify Sample.parabola tol0 true) tol0 1200 900)
    as (Ho & Hn & _).
  - vm_compute. reflexivity.
  - split; [exact Ho | exact Hn].
Defined.

(** * Further properties of the pipeline *)

(** The decimal writing of an integer starts with a digit or a sign, so
    a summary is never the text of the other case. *)
Lemma summary_not_none (z : Z) (s : string) :
  (str z ++ s)%string ≠ "Aucune simplification"%string.
Proof.
  unfold str. destruct (Z.to_int z) as [u|u]; [|discriminate].
  destruct u; simpl; discriminate.
Qed.

Section PipelineExtras.

Variable simplify : geometry → Q → bool → geometry.
Variable shape : json → option geometry.
Variable mapping : geometry → json.
Variable dumps : json → string.

Notation adaptive poly :=
  (adaptive_polygon_simplify simplify poly default_target_points default_max_iterations).
Notation on_poly := (poly_body simplify mapping dumps).
Notation on_polys := (for_polys simplify mapping dumps).
Notation on_feature := (feature_body simplify shape mapping dumps).
Notation on_features := (for_features simplify shape mapping dumps).
Notation gather := (collect simplify shape mapping dumps).
Notation run :=
  (geojson_to_excel_with_exploded_multipolygons simplify shape mapping dumps).
Notation nothing := (mkOutputs [] []).

(** The row and the feature of one polygon. *)
Notation row_of d g tol o n :=
  (<["simplification_info" := JString (simplification_info tol o n)]>
     (<["geometry" :=
          JString (dumps (JDict {[ "type" := JString "Feature";
                                   "geometry" := mapping g ]}))]> d)).
Notation feature_of d g :=
  (JDict {[ "type" := JString "Feature"; "geometry" := mapping g;
            "properties" := JDict d ]}).

(** A run of the body of the inner loop that returns has appended one row
    and one feature, and the properties are a dictionary. *)
Lemma poly_body_Ok (props : json) (poly : geometry) (out out' : outputs) :
  on_poly props poly out = Ok out' →
  ∃ (d : gmap string json) (g : geometry) (tol : Q) (o n : Z),
    props = JDict d ∧ adaptive poly = Ok (g, tol, o, n) ∧
    out' = mkOutputs (all_records out ++ [row_of d g tol o n])
                     (simplified_features out ++ [feature_of d g]).
Proof.
  destruct (adaptive_default simplify poly) as (g & tol & o & n & Hr & _).
  unfold poly_body. rewrite Hr. simpl.
  destruct props as [| | | | | |d]; simpl; try done.
  intros [= <-]. by exists d, g, tol, o, n.
Qed.

(** What is appended does not depend on what was there before. *)
Lemma poly_body_append (props : json) (poly : geometry) (out : outputs) :
  on_poly props poly out = append_outputs out <$> on_poly props poly nothing.
Proof.
  destruct (adaptive_default simplify poly) as (g & tol & o & n & Hr & _).
  unfold poly_body. rewrite Hr. simpl.
  destruct props as [| | | | | |d]; simpl; try done.
Qed.

Lemma append_outputs_assoc (a b c : outputs) :
  append_outputs (append_outputs a b) c = append_outputs a (append_outputs b c).
Proof. unfold append_outputs. simpl. by rewrite !app_assoc. Qed.

Lemma append_outputs_nothing_r (a : outputs) : append_outputs a nothing = a.
Proof. unfold append_outputs. simpl. rewrite !app_nil_r. by destruct a. Qed.

Lemma append_outputs_nothing_l (a : outputs) : append_outputs nothing a = a.
Proof. unfold append_outputs. simpl. by destruct a. Qed.

Lemma for_polys_append (props : json) (polys : list geometry) (out : outputs) :
  on_polys props polys out = append_outputs out <$> on_polys props polys nothing.
Proof.
  revert out. induction polys as [|poly polys IH]; intros out; simpl.
  - by rewrite append_outputs_nothing_r.
  - rewrite (poly_body_append props poly out).
    destruct (on_poly props poly nothing) as [o1| |]; simpl; [|done..].
    rewrite (IH (append_outputs out o1)), (IH o1).
    destruct (on_polys props polys nothing) as [o2| |]; simpl; [|done..].
    by rewrite append_outputs_assoc.
Qed.

Lemma feature_body_append (feature : json) (out : outputs) :
  on_feature feature out = append_outputs out <$> on_feature feature nothing.
Proof.
  unfold feature_body.
  destruct (get feature "properties" (JDict ∅)) as [props| |]; simpl; [|done..].
  destruct (getitem feature "geometry") as [gj| |]; simpl; [|done..].
  destruct (shape gj) as [geom|]; [|done].
  destruct (explode geom) as [polys|].
  - apply for_polys_append.
  - simpl. by rewrite append_outputs_nothing_r.
Qed.

Lemma for_features_append (features : list json) (out : outputs) :
  on_features features out = append_outputs out <$> on_features features nothing.
Proof.
  revert out. induction features as [|feature features IH]; intros out; simpl.
  - by rewrite append_outputs_nothing_r.
  - rewrite (feature_body_append feature out).
    destruct (on_feature feature nothing) as [o1| |]; simpl; [|done..].
    rewrite (IH (append_outputs out o1)), (IH o1).
    destruct (on_features features nothing) as [o2| |]; simpl; [|done..].
    by rewrite append_outputs_assoc.
Qed.

(** X6. The features of a collection are processed one after the other and
    independently: the outputs for two lists of features put end to end are
    the outputs for the first followed by the outputs for the second, and
    the first exception stops everything. *)
Theorem collection_splits (features1 features2 : list json) :
  on_features (features1 ++ features2) nothing =
  (out1 ← on_features features1 nothing;
   append_outputs out1 <$> on_features features2 nothing).
Proof.
  induction features1 as [|feature features1 IH]; simpl.
  - destruct (on_features features2 nothing) as [o| |]; simpl; [|done..].
    by rewrite append_outputs_nothing_l.
  - destruct (on_feature feature nothing) as [o1| |]; simpl; [|done..].
    rewrite (for_features_append (features1 ++ features2) o1), IH.
    rewrite (for_features_append features1 o1).
    destruct (on_features features1 nothing) as [o2| |]; simpl; [|done..].
    destruct (on_features features2 nothing) as [o3| |]; simpl; [|done..].
    by rewrite append_outputs_assoc.
Qed.

(** A row and a feature of the same polygon: the feature is a GeoJSON
    feature with dictionary properties, the cell [geometry] of the row is
    the text of that feature without its properties, the cell
    [simplification_info] is a text, and every other cell of the row is the
    property of that name. *)
Notation paired row feat :=
  (∃ (gj : json) (d : gmap string json) (info : string),
     feat = JDict {[ "type" := JString "Feature"; "geometry" := gj;
                     "properties" := JDict d ]} ∧
     row !! "geometry" =
     Some (JString (dumps (JDict {[ "type" := JString "Feature"; "geometry" := gj ]}))) ∧
     row !! "simplification_info" = Some (JString info) ∧
     ∀ k : string, k ≠ "geometry" → k ≠ "simplification_info" → row !! k = d !! k).

Lemma poly_body_paired (props : json) (poly : geometry) (out out' : outputs) :
  Forall2 (λ row feat, paired row feat) (all_records out) (simplified_features out) →
  on_poly props poly out = Ok out' →
  Forall2 (λ row feat, paired row feat) (all_records out') (simplified_features out').
Proof.
  intros Hout Hb. apply poly_body_Ok in Hb as (d & g & tol & o & n & _ & _ & ->).
  simpl. apply Forall2_app; [done|]. constructor; [|constructor].
  exists (mapping g), d, (simplification_info tol o n).
  split; [done|]. split; [by rewrite lookup_insert_ne, lookup_insert_eq|].
  split; [by rewrite lookup_insert_eq|].
  intros k Hk1 Hk2. by rewrite !lookup_insert_ne.
Qed.

Lemma for_polys_paired (props : json) (polys : list geometry) (out out' : outputs) :
  Forall2 (λ row feat, paired row feat) (all_records out) (simplified_features out) →
  on_polys props polys out = Ok out' →
  Forall2 (λ row feat, paired row feat) (all_records out') (simplified_features out').
Proof.
  revert out. induction polys as [|poly polys IH]; intros out Hout; simpl.
  - by intros [= <-].
  - destruct (on_poly props poly out) as [out1| |] eqn:Hb; simpl; [|done..].
    apply IH. by eapply poly_body_paired.
Qed.

Lemma for_features_paired (features : list json) (out out' : outputs) :
  Forall2 (λ row feat, paired row feat) (all_records out) (simplified_features out) →
  on_features features out = Ok out' →
  Forall2 (λ row feat, paired row feat) (all_records out') (simplified_features out').
Proof.
  revert out. induction features as [|feature features IH]; intros out Hout; simpl.
  - by intros [= <-].
  - destruct (on_feature feature out) as [out1| |] eqn:Hb; simpl; [|done..].
    apply IH. revert Hb. unfold feature_body.
    destruct (get feature "properties" (JDict ∅)) as [props| |]; simpl; [|done..].
    destruct (getitem feature "geometry") as [gj| |]; simpl; [|done..].
    destruct (shape gj) as [geom|]; [|done].
    destruct (explode geom) as [polys|].
    + by apply for_polys_paired.
    + by intros [= <-].
Qed.

Lemma collect_paired (fs : gmap string file) (path : string) (out : outputs) :
  gather fs path = Ok out →
  Forall2 (λ row feat, paired row feat) (all_records out) (simplified_features out).
Proof.
  unfold collect.
  destruct (json_load fs path) as [data| |]; simpl; [|done..].
  destruct (features_of data) as [features| |]; simpl; [|done..].
  apply for_features_paired. constructor.
Qed.

(** What a run that succeeds leaves, and where an exception comes from. *)
Lemma run_Ok (fs : gmap string file) (i x g : string) :
  (run fs i x g).1 = Ok () →
  ∃ out : outputs,
    gather fs i = Ok out ∧
    (run fs i x g).2 =
    <[g := JsonFile (JDict {[ "type" := JString "FeatureCollection";
                              "features" := JList (simplified_features out) ]})]>
      (<[x := ExcelFile (all_records out)]> fs).
Proof.
  unfold geojson_to_excel_with_exploded_multipolygons.
  destruct (gather fs i) as [out| |]; simpl; [|done..]. intros _. by exists out.
Qed.

Lemma run_Raise (fs : gmap string file) (i x g : string) (e : exn) :
  (run fs i x g).1 = Raise e → gather fs i = Raise e.
Proof.
  unfold geojson_to_excel_with_exploded_multipolygons.
  destruct (gather fs i) as [out| |]; simpl; [done| |done]. by intros [= ->].
Qed.

(** X7. In the outputs of a run the rows and the features go by pairs, in
    the same order: the table has as many rows as the collection has
    features, the cell [geometry] of a row is the text of its feature
    without the properties, and the other cells, [simplification_info]
    apart, are the properties of the feature. *)
Theorem rows_match_features (fs : gmap string file) (i x g : string) :
  (run fs i x g).1 = Ok () →
  ∃ (rows : list (gmap string json)) (feats : list json),
    (run fs i x g).2 !! g =
    Some (JsonFile (JDict {[ "type" := JString "FeatureCollection";
                             "features" := JList feats ]})) ∧
    (x ≠ g → (run fs i x g).2 !! x = Some (ExcelFile rows)) ∧
    length rows = length feats ∧
    Forall2 (λ row feat, paired row feat) rows feats.
Proof.
  intros Hok. apply run_Ok in Hok as (out & Hc & ->).
  exists (all_records out), (simplified_features out).
  split; [by rewrite lookup_insert_eq|].
  split; [intros Hne; by rewrite lookup_insert_ne, lookup_insert_eq|].
  apply collect_paired in Hc. split; [by eapply Forall2_length | done].
Qed.

(** X8. A single feature is processed as the collection of that one
    feature: the two documents give the same rows and features, or the
    same exception. *)
Theorem single_feature_as_collection (fs1 fs2 : gmap string file) (i1 i2 : string)
    (d : gmap string json) :
  d !! "type" = Some (JString "Feature") →
  fs1 !! i1 = Some (JsonFile (JDict d)) →
  fs2 !! i2 = Some (JsonFile (JDict {[ "type" := JString "FeatureCollection";
                                       "features" := JList [JDict d] ]})) →
  gather fs1 i1 = gather fs2 i2.
Proof.
  intros Htype H1 H2. unfold collect, json_load. rewrite H1, H2. simpl.
  unfold features_of, get, getitem. simpl. rewrite Htype. simpl.
  by rewrite lookup_insert_eq.
Qed.

(** X9. What a run computes before the exports (the rows and the
    features, or the exception) depends on the input file and on nothing
    else, so two runs that succeed on file systems with the same input file
    write the same two files; a run leaves every path other than the two
    output paths as it was; and when the two output paths are the same path
    a run that succeeds leaves the collection there, the table being
    overwritten. *)
Theorem run_footprint (fs fs' : gmap string file) (i x g : string) :
  (fs !! i = fs' !! i →
   gather fs i = gather fs' i ∧
   ((run fs i x g).1 = Ok () → (run fs' i x g).1 = Ok () →
    (run fs i x g).2 !! x = (run fs' i x g).2 !! x ∧
    (run fs i x g).2 !! g = (run fs' i x g).2 !! g)) ∧
  (∀ p : string, p ≠ x → p ≠ g → (run fs i x g).2 !! p = fs !! p) ∧
  ((run fs i x g).1 = Ok () → x = g →
   ∃ feats : list json,
     (run fs i x g).2 !! x =
     Some (JsonFile (JDict {[ "type" := JString "FeatureCollection";
                              "features" := JList feats ]}))).
Proof.
  split; [|split].
  - intros Hi. assert (gather fs i = gather fs' i) as Hc.
    { unfold collect, json_load. by rewrite Hi. }
    split; [exact Hc|]. intros Hok Hok'.
    apply run_Ok in Hok as (out & Hout & ->).
    apply run_Ok in Hok' as (out' & Hout' & ->).
    assert (out' = out) as -> by congruence.
    split.
    + destruct (decide (g = x)) as [->|Hne].
      * by rewrite !lookup_insert_eq.
      * by rewrite !(lookup_insert_ne _ g x), !lookup_insert_eq.
    + by rewrite !lookup_insert_eq.
  - intros p Hx Hg. unfold geojson_to_excel_with_exploded_multipolygons.
    destruct (gather fs i) as [out| |]; simpl; [|done..].
    by rewrite !lookup_insert_ne.
  - intros Hok <-. apply run_Ok in Hok as (out & _ & ->).
    exists (simplified_features out). by rewrite lookup_insert_eq.
Qed.

(** X10. The collection a run writes is a valid input: read back, it is a
    feature collection whose features are the features written, so a second
    run on it does not raise the invalid-input error. *)
Theorem output_is_input (fs : gmap string file) (i x g x' g' : string) :
  (run fs i x g).1 = Ok () →
  ∃ (doc : json) (feats : list json),
    json_load (run fs i x g).2 g = Ok doc ∧
    features_of doc = Ok feats ∧
    Forall (λ feat, getitem feat "type" = Ok (JString "Feature")) feats ∧
    (run (run fs i x g).2 g x' g').1 ≠ Raise invalid_input.
Proof.
  intros Hok. destruct (run_Ok _ _ _ _ Hok) as (out & Hc & Hfs).
  set (doc := JDict {[ "type" := JString "FeatureCollection";
                       "features" := JList (simplified_features out) ]}).
  assert (json_load (run fs i x g).2 g = Ok doc) as Hload.
  { unfold json_load. by rewrite Hfs, lookup_insert_eq. }
  assert (features_of doc = Ok (simplified_features out)) as Hfeats.
  { unfold features_of, get, getitem, doc. simpl.
    rewrite lookup_insert_eq. simpl.
    by rewrite lookup_insert_ne, lookup_singleton_eq. }
  exists doc, (simplified_features out). split; [done|]. split; [done|]. split.
  - apply collect_paired in Hc.
    eapply Forall2_Forall_r; [exact Hc|]. apply Forall_true.
    intros row feat (gj & d & info & -> & _). unfold getitem.
    by rewrite lookup_insert_eq.
  - intros Hr. apply run_Raise in Hr.
    unfold collect in Hr. rewrite Hload in Hr. simpl in Hr.
    rewrite Hfeats in Hr. simpl in Hr.
    by apply for_features_raise in Hr.
Qed.

(** X11. The cell [simplification_info] of the row of a polygon is
    ["Aucune simplification"] exactly when the polygon has at most 780
    coordinates. *)
Theorem no_simplification_iff (d : gmap string json) (poly : geometry) (out : outputs) :
  ∃ (row : gmap string json) (feat : json),
    on_poly (JDict d) poly out =
    Ok (mkOutputs (all_records out ++ [row]) (simplified_features out ++ [feat])) ∧
    (row !! "simplification_info" = Some (JString "Aucune simplification") ↔
     total_coords_count poly ≤ 780).
Proof.
  destruct (Z.le_gt_cases (total_coords_count poly) default_target_points) as [Hle|Hgt].
  - eexists _, _. split.
    + apply poly_body_dict. by apply adaptive_polygon_simplify_fast.
    + rewrite lookup_insert_eq. done.
  - destruct (adaptive_polygon_simplify_search simplify poly
                default_target_points default_max_iterations)
      as (st & n & Hn & _ & _ & Hr); [lia | done |].
    eexists _, _. split; [apply poly_body_dict; exact Hr|].
    rewrite lookup_insert_eq. unfold default_target_points in Hgt.
    split; [|lia]. intros [= Hinfo]. exfalso.
    assert (0 < tolerance st)%Q as Hpos.
    { eapply visited_tolerance_pos; [|by eapply rtc_nsteps_2]. done. }
    unfold simplification_info in Hinfo.
    apply Qltb_lt in Hpos. rewrite Hpos in Hinfo.
    by apply summary_not_none in Hinfo.
Qed.

(** X12. The properties of a feature must be a dictionary as soon as its
    geometry has a polygon. Properties that are present and are [null], a
    boolean, a number or a string make the body raise [AttributeError] (at
    [props.copy()]); properties that are a list make it raise [TypeError]
    (the copy is made, and [record["geometry"] = ...] fails). A feature
    without the key ["properties"] is processed, and its rows have the two
    cells [geometry] and [simplification_info] only. *)
Theorem properties_of_feature
    (feature : gmap string json) (geometry_json : json) (geom : geometry)
    (poly : geometry) (polys : list geometry) (out : outputs) :
  feature !! "geometry" = Some geometry_json → shape geometry_json = Some geom →
  explode geom = Some (poly :: polys) →
  (∀ props : json,
     feature !! "properties" = Some props →
     (∀ d : gmap string json, props ≠ JDict d) →
     on_feature (JDict feature) out =
     Raise (match props with JList _ => TypeError | _ => AttributeError end)) ∧
  (feature !! "properties" = None →
   ∃ (rows : list (gmap string json)) (feats : list json),
     on_feature (JDict feature) out =
     Ok (mkOutputs (all_records out ++ rows) (simplified_features out ++ feats)) ∧
     length rows = S (length polys) ∧
     Forall (λ row : gmap string json,
               ∀ k : string, k ≠ "geometry" → k ≠ "simplification_info" →
                             row !! k = None) rows).
Proof.
  intros Hgeometry Hshape Hexplode.
  assert (on_feature (JDict feature) out =
          on_polys (default (JDict ∅) (feature !! "properties")) (poly :: polys) out)
    as Hbody.
  { unfold feature_body, get, getitem. simpl.
    by rewrite Hgeometry; simpl; rewrite Hshape, Hexplode. }
  split.
  - intros props Hprops Hnot. rewrite Hbody, Hprops. simpl.
    destruct (adaptive_default simplify poly) as (g & tol & o & n & Hr & _).
    unfold poly_body. rewrite Hr. simpl.
    destruct props as [| | | | | |d]; simpl; try done.
    by destruct (Hnot d).
  - intros Hnone. rewrite Hbody, Hnone. simpl default.
    destruct (for_polys_dict simplify mapping dumps ∅ (poly :: polys) out)
      as (rows & feats & Hr & Hrows & _).
    exists rows, feats. split; [exact Hr|].
    split; [apply Forall2_length in Hrows; simpl in Hrows; lia|].
    eapply Forall2_Forall_r; [exact Hrows|]. apply Forall_true.
    intros p row (g & tol & o & n & _ & _ & Hk) k Hk1 Hk2.
    by rewrite Hk.
Qed.

(** X13. A feature the pipeline wrote for a polygon of at most 780
    coordinates comes out of a second run as it is, with the information
    ["Aucune simplification"], provided [shape] reads back the geometry
    that [mapping] wrote. *)
Theorem written_feature_again (d : gmap string json) (p : polygon) (out : outputs) :
  total_coords_count (Polygon p) ≤ 780 →
  shape (mapping (Polygon p)) = Some (Polygon p) →
  ∃ row : gmap string json,
    on_feature (feature_of d (Polygon p)) out =
    Ok (mkOutputs (all_records out ++ [row])
                  (simplified_features out ++ [feature_of d (Polygon p)])) ∧
    row !! "simplification_info" = Some (JString "Aucune simplification") ∧
    ∀ k : string, k ≠ "geometry" → k ≠ "simplification_info" → row !! k = d !! k.
Proof.
  intros Hcount Hshape. eexists. split; [|split].
  - unfold feature_body, get, getitem. simpl.
    rewrite (lookup_insert_ne _ "type" "properties") by done.
    rewrite (lookup_insert_ne _ "geometry" "properties") by done.
    rewrite lookup_singleton_eq. simpl.
    rewrite (lookup_insert_ne _ "type" "geometry") by done.
    rewrite lookup_insert_eq. simpl. rewrite Hshape. simpl.
    rewrite (poly_body_dict simplify mapping dumps d (Polygon p) out (Polygon p) 0%Q
                      (total_coords_count (Polygon p)) (total_coords_count (Polygon p))).
    + reflexivity.
    + by apply adaptive_polygon_simplify_fast.
  - by rewrite lookup_insert_eq.
  - intros k Hk1 Hk2. by rewrite !lookup_insert_ne.
Qed.

#[local] Set Warnings "-clear-no-such-hyp".

Lemma for_polys_raise_in (props : json) (polys : list geometry) (out : outputs) (e : exn) :
  on_polys props polys out = Raise e → e ∈ [AttributeError; TypeError].
Proof. intros Hr. apply for_polys_raise in Hr as [-> | ->]; set_solver. Qed.

Lemma for_features_raise_in (features : list json) (out : outputs) (e : exn) :
  on_features features out = Raise e →
  e ∈ [AttributeError; TypeError; KeyError "geometry"; ShapeError].
Proof.
  revert out. induction features as [|feature features IH]; intros out; simpl; [done|].
  destruct (on_feature feature out) as [out'|e'|] eqn:Hb; simpl; [apply IH| |done].
  intros [= <-]. revert Hb. unfold feature_body, get, getitem.
  destruct feature as [| | | | | |d]; simpl; try (intros [= <-]; set_solver).
  destruct (d !! "geometry") as [gj|]; simpl; [|intros [= <-]; set_solver].
  destruct (shape gj) as [geom|]; [|intros [= <-]; set_solver].
  destruct (explode geom) as [polys|]; [|done].
  intros Hr. apply for_polys_raise_in in Hr. set_solver.
Qed.

(** X14. Once the input document is read, what a run does before the
    exports can raise only: [AttributeError] or [TypeError] for a value
    without the method or the iteration asked of it, [KeyError] for a
    collection without ["features"] or a feature without ["geometry"], the
    exception of a geometry shapely refuses, and the invalid-input error
    ([simplify], [mapping] and [json.dumps] being taken to return). The
    division by zero of the simplifier is not among them. *)
Theorem run_exceptions (fs : gmap string file) (i : string) (doc : json) (e : exn) :
  json_load fs i = Ok doc → gather fs i = Raise e →
  e ∈ [AttributeError; TypeError; KeyError "features"; KeyError "geometry";
       ShapeError; invalid_input] ∧
  e ≠ ZeroDivisionError.
Proof.
  intros Hload Hr.
  assert (e ∈ [AttributeError; TypeError; KeyError "features"; KeyError "geometry";
               ShapeError; invalid_input]) as Hin.
  { revert Hr. unfold collect. rewrite Hload. simpl.
    destruct (features_of doc) as [features|e'|] eqn:Hf; simpl; [| |done].
    - intros Hr. apply for_features_raise_in in Hr. set_solver.
    - intros [= <-]. revert Hf. unfold features_of, get, getitem, iter.
      destruct doc as [| | | | | |d]; simpl; try (intros [= <-]; set_solver).
      destruct (eq_str _ "FeatureCollection").
      + destruct (d !! "features") as [features|]; simpl; [|intros [= <-]; set_solver].
        destruct features; intros [= <-]; set_solver.
      + destruct (eq_str _ "Feature"); [done|]. intros [= <-]. set_solver. }
  split; [done|]. intros ->. unfold invalid_input in Hin. set_solver.
Qed.

(** X15. The call at the end of the module: an exception raised before
    the exports leaves the file system as it was; without the input file
    that exception is [FileNotFoundError]; when the call succeeds it leaves
    the input file as it is and has written the table and the collection,
    with as many rows as features. *)
Theorem main_files (fs : gmap string file) :
  (∀ e : exn,
     gather fs "C:/Users/lgrillon/Downloads/SER__test.geojson" = Raise e →
     main simplify shape mapping dumps fs = (Raise e, fs)) ∧
  (fs !! "C:/Users/lgrillon/Downloads/SER__test.geojson" = None →
   main simplify shape mapping dumps fs = (Raise FileNotFoundError, fs)) ∧
  ((main simplify shape mapping dumps fs).1 = Ok () →
   (main simplify shape mapping dumps fs).2 !! "C:/Users/lgrillon/Downloads/SER__test.geojson" =
   fs !! "C:/Users/lgrillon/Downloads/SER__test.geojson" ∧
   ∃ (rows : list (gmap string json)) (feats : list json),
     (main simplify shape mapping dumps fs).2 !! "C:/Users/lgrillon/Downloads/SER__test3.xlsx" =
     Some (ExcelFile rows) ∧
     (main simplify shape mapping dumps fs).2 !! "C:/Users/lgrillon/Downloads/SER__test3.geojson" =
     Some (JsonFile (JDict {[ "type" := JString "FeatureCollection";
                              "features" := JList feats ]})) ∧
     length rows = length feats).
Proof.
  unfold main. split; [|split].
  - intros e Hr. unfold geojson_to_excel_with_exploded_multipolygons. by rewrite Hr.
  - intros Hnone. unfold geojson_to_excel_with_exploded_multipolygons, collect, json_load.
    by rewrite Hnone.
  - intros Hok. apply run_Ok in Hok as (out & Hc & ->).
    split.
    + rewrite !lookup_insert_ne; [done|apply String.eqb_neq; reflexivity..].
    + exists (all_records out), (simplified_features out). split; [|split].
      * rewrite lookup_insert_ne by (apply String.eqb_neq; reflexivity).
        by rewrite lookup_insert_eq.
      * by rewrite lookup_insert_eq.
      * apply collect_paired in Hc. by eapply Forall2_length.
Qed.

End PipelineExtras.

(** ** The further properties on sample inputs *)

Lemma rows_match_features_witness :
  ∃ (rows : list (gmap string json)) (feats : list json),
    (Sample.run
       {[ "in.geojson" :=
            JsonFile (Sample.collection [Sample.multipolygon_feature;
                                         Sample.linestring_feature;
                                         Sample.polygon_feature]) ]}
       "in.geojson" "out.xlsx" "out.geojson").2 !! "out.xlsx" = Some (ExcelFile rows) ∧
    length rows = length feats.
Proof.
  destruct (rows_match_features Sample.simplify Sample.shape Sample.mapping Sample.dumps
              {[ "in.geojson" :=
                   JsonFile (Sample.collection [Sample.multipolygon_feature;
                                                Sample.linestring_feature;
                                                Sample.polygon_feature]) ]}
              "in.geojson" "out.xlsx" "out.geojson")
    as (rows & feats & _ & Hx & Hlen & _).
  - vm_compute. reflexivity.
  - exists rows, feats. split; [|exact Hlen].
    apply Hx. apply String.eqb_neq. reflexivity.
Defined.

Lemma single_feature_as_collection_witness :
  collect Sample.simplify Sample.shape Sample.mapping Sample.dumps
    {[ "one.geojson" := JsonFile Sample.polygon_feature ]} "one.geojson" =
  collect Sample.simplify Sample.shape Sample.mapping Sample.dumps
    {[ "all.geojson" := JsonFile (Sample.collection [Sample.polygon_feature]) ]}
    "all.geojson".
Proof.
  apply (single_feature_as_collection Sample.simplify Sample.shape Sample.mapping Sample.dumps
           _ _ "one.geojson" "all.geojson"
           (Sample.feature_fields (Sample.mapping (Polygon Sample.holed_square)))).
  - vm_compute. reflexivity.
  - vm_compute. reflexivity.
  - vm_compute. reflexivity.
Defined.

Lemma run_footprint_witness :
  (Sample.run {[ "in.geojson" := JsonFile Sample.polygon_feature ]}
     "in.geojson" "out.xlsx" "out.geojson").2 !! "out.xlsx" =
  (Sample.run {[ "in.geojson" := JsonFile Sample.polygon_feature; "notes.txt" := OtherFile ]}
     "in.geojson" "out.xlsx" "out.geojson").2 !! "out.xlsx".
Proof.
  destruct (run_footprint Sample.simplify Sample.shape Sample.mapping Sample.dumps
              {[ "in.geojson" := JsonFile Sample.polygon_feature ]}
              {[ "in.geojson" := JsonFile Sample.polygon_feature;
                 "notes.txt" := OtherFile ]}
              "in.geojson" "out.xlsx" "out.geojson") as (Hsame & _ & _).
  destruct Hsame as [_ Hfiles].
  - vm_compute. reflexivity.
  - apply Hfiles.
    + vm_compute. reflexivity.
    + vm_compute. reflexivity.
Defined.

Lemma output_is_input_witness :
  (Sample.run
     (Sample.run {[ "in.geojson" := JsonFile Sample.polygon_feature ]}
        "in.geojson" "out.xlsx" "out.geojson").2
     "out.geojson" "again.xlsx" "again.geojson").1 ≠ Raise invalid_input.
Proof.
  destruct (output_is_input Sample.simplify Sample.shape Sample.mapping Sample.dumps
              {[ "in.geojson" := JsonFile Sample.polygon_feature ]}
              "in.geojson" "out.xlsx" "out.geojson" "again.xlsx" "again.geojson")
    as (doc & feats & _ & _ & _ & Hvalid).
  - vm_compute. reflexivity.
  - exact Hvalid.
Defined.

Lemma properties_of_feature_witness :
  feature_body Sample.simplify Sample.shape Sample.mapping Sample.dumps
    (JDict {[ "type" := JString "Feature";
              "geometry" := Sample.mapping (Polygon Sample.holed_square);
              "properties" := JNull ]}) (mkOutputs [] []) = Raise AttributeError.
Proof.
  destruct (properties_of_feature Sample.simplify Sample.shape Sample.mapping Sample.dumps
              {[ "type" := JString "Feature";
                 "geometry" := Sample.mapping (Polygon Sample.holed_square);
                 "properties" := JNull ]}
              (Sample.mapping (Polygon Sample.holed_square))
              (Polygon Sample.holed_square) (Polygon Sample.holed_square) []
              (mkOutputs [] [])) as [Hbad _].
  - vm_compute. reflexivity.
  - vm_compute. reflexivity.
  - reflexivity.
  - apply (Hbad JNull).
    + vm_compute. reflexivity.
    + intros d. discriminate.
Defined.

Lemma written_feature_again_witness :
  ∃ row : gmap string json,
    feature_body Sample.simplify Sample.shape Sample.mapping Sample.dumps
      Sample.polygon_feature (mkOutputs [] []) =
    Ok (mkOutputs [row] [Sample.polygon_feature]) ∧
    row !! "simplification_info" = Some (JString "Aucune simplification").
Proof.
  destruct (written_feature_again Sample.simplify Sample.shape Sample.mapping Sample.dumps
              {[ "name" := JString "parcelle"; "code" := JInt 95 ]}
              Sample.holed_square (mkOutputs [] [])) as (row & Hr & Hinfo & _).
  - vm_compute. discriminate.
  - vm_compute. reflexivity.
  - exists row. split; [exact Hr | exact Hinfo].
Defined.

Lemma run_exceptions_witness :
  AttributeError ∈
    [AttributeError; TypeError; KeyError "features"; KeyError "geometry";
     ShapeError; invalid_input] ∧
  AttributeError ≠ ZeroDivisionError.
Proof.
  apply (run_exceptions Sample.simplify Sample.shape Sample.mapping Sample.dumps
           {[ "in.geojson" := JsonFile (JList []) ]} "in.geojson" (JList [])).
  - vm_compute. reflexivity.
  - vm_compute. reflexivity.
Defined.

Lemma main_files_witness :
  main Sample.simplify Sample.shape Sample.mapping Sample.dumps ∅ =
  (Raise FileNotFoundError, ∅).
Proof.
  apply (proj1 (proj2 (main_files Sample.simplify Sample.shape Sample.mapping Sample.dumps ∅))).
  reflexivity.
Defined.
